(** * slack-delete-cloud: the cleanup handler of [function/main.py]

    A shallow embedding of the HTTP-triggered function that lists the aged
    files of a Slack workspace and deletes them, and the properties of its
    report.

    The file has three parts: the fragment of the Python runtime the handler
    relies on ([Py]), the outside world it talks to ([World]: the clock, the
    secret store and the two Slack endpoints), and the handler itself, one
    definition per function of [main.py], under the names of the source. *)

From Stdlib Require Import ZArith Ascii String DecimalString DecimalPos Lia.
From stdpp Require Import base option list gmap strings.

Local Open Scope Z_scope.

(** ** Python runtime fragment *)

Module Py.

(** *** Strings *)

(** [len(s)]. *)
Definition len (s : string) : nat := String.length s.

(** [sub in s] for two [str]: [sub] occurs in [s] at some position. *)
Fixpoint str_in (sub s : string) : bool :=
  if String.prefix sub s then true
  else match s with
       | EmptyString => false
       | String _ s' => str_in sub s'
       end.

(** Iterating over a [str] yields its characters, each as a [str] of
    length one. *)
Fixpoint str_iter (s : string) : list string :=
  match s with
  | EmptyString => []
  | String c s' => String c EmptyString :: str_iter s'
  end.

(** [s.replace(old, new)] for a non-empty [old]: the occurrences of [old] are
    replaced from left to right, without overlap. [skip] counts the characters
    of the occurrence just replaced that are still to be dropped. *)
Fixpoint replace_from (old new : string) (skip : nat) (s : string) : string :=
  match s with
  | EmptyString => EmptyString
  | String c s' =>
      match skip with
      | S k => replace_from old new k s'
      | O =>
          if String.prefix old s
          then new +:+ replace_from old new (Nat.pred (len old)) s'
          else String c (replace_from old new O s')
      end
  end.

Definition str_replace (old new s : string) : string :=
  replace_from old new O s.

(** The line feed, ['\n']. *)
Definition LF : ascii := "010"%char.
Definition newline : string := String LF EmptyString.

(** No line feed occurs in [s]. *)
Fixpoint nl_free (s : string) : bool :=
  match s with
  | EmptyString => true
  | String c s' => negb (Ascii.eqb c LF) && nl_free s'
  end.

(** *** Integers as text *)

(** [str(n)] for an [int]. *)
Definition str_int (n : Z) : string := NilZero.string_of_int (Z.to_int n).

(** A field of [strftime] padded with zeros to two digits ([%m], [%d], [%H],
    [%M], [%S]). *)
Definition pad2 (n : N) : string :=
  if (n <? 10)%N then "0" +:+ str_int (Z.of_N n) else str_int (Z.of_N n).

(** *** Values and exceptions *)

(** The values that reach the handler as request parameters: a query-string
    value is always a [str]; a field of the JSON body is one of the JSON
    scalars (numbers with a fraction part are left out). *)
Inductive value :=
  | VInt (n : Z)
  | VStr (s : string)
  | VBool (b : bool)
  | VNone.

#[global] Instance value_eq_dec : EqDecision value.
Proof. solve_decision. Defined.

(** The exceptions of the model; all of them derive from [Exception], which
    is what the handler of [delete_files] catches. *)
Inductive exn :=
  | ValueError (msg : string)
  | TypeError (msg : string)
  | KeyError (key : string)
  | IOError (msg : string).

#[global] Instance exn_eq_dec : EqDecision exn.
Proof. solve_decision. Defined.

(** [repr(s)] of a [str] of ASCII characters: single quotes, unless the text
    has a single quote and no double quote; the quote and the backslash are
    escaped, tab, line feed and carriage return are written [\t], [\n] and
    [\r], and the other control characters are written [\xhh]. (For a
    character outside ASCII Python consults its Unicode tables; here such a
    character is kept as it is.) *)
Definition APOS : ascii := "'"%char.
Definition QUOT : ascii := "034"%char.
Definition BSL : ascii := "\"%char.

Fixpoint has_char (c : ascii) (s : string) : bool :=
  match s with
  | EmptyString => false
  | String d s' => Ascii.eqb c d || has_char c s'
  end.

Definition hexdigit (n : N) : ascii :=
  ascii_of_N (if (n <? 10)%N then 48 + n else 87 + n).

Fixpoint escape (q : ascii) (s : string) : string :=
  match s with
  | EmptyString => EmptyString
  | String c s' =>
      let rest := escape q s' in
      let n := N_of_ascii c in
      if Ascii.eqb c BSL then String BSL (String BSL rest)
      else if Ascii.eqb c q then String BSL (String q rest)
      else if Ascii.eqb c LF then String BSL (String "n" rest)
      else if Ascii.eqb c "013" then String BSL (String "r" rest)
      else if Ascii.eqb c "009" then String BSL (String "t" rest)
      else if ((n <? 32) || (n =? 127))%N then
        String BSL (String "x" (String (hexdigit (n / 16))
                                  (String (hexdigit (n mod 16)) rest)))
      else String c rest
  end.

Definition repr (s : string) : string :=
  let q := if has_char APOS s && negb (has_char QUOT s) then QUOT else APOS in
  String q (escape q s) +:+ String q EmptyString.

(** [str(e)]. *)
Definition str_exn (e : exn) : string :=
  match e with
  | ValueError msg | TypeError msg | IOError msg => msg
  | KeyError key => repr key
  end.

(** [str(v)], as an f-string renders a value. *)
Definition str (v : value) : string :=
  match v with
  | VInt n => str_int n
  | VStr s => s
  | VBool true => "True"
  | VBool false => "False"
  | VNone => "None"
  end.

(** Truth value of a value, as [if v:] tests it. *)
Definition truthy (v : value) : bool :=
  match v with
  | VInt n => negb (n =? 0)
  | VStr s => negb (String.eqb s EmptyString)
  | VBool b => b
  | VNone => false
  end.

(** *** [int(v)] *)

(** The text the model of [int] covers: a [str] of ASCII characters. For
    a [str] with a character outside ASCII, [int] consults the Unicode tables
    of the interpreter (digits and white space of other scripts), which are
    not part of the program; [plain] marks the values free of such text. *)
Fixpoint is_ascii (s : string) : bool :=
  match s with
  | EmptyString => true
  | String c s' => (N_of_ascii c <? 128)%N && is_ascii s'
  end.

(** White space that [int] strips from both ends of an ASCII [str]: tab,
    line feed, vertical tab, form feed, carriage return and space. *)
Definition is_space (c : ascii) : bool :=
  let n := N_of_ascii c in
  ((9 <=? n) && (n <=? 13) || (n =? 32))%N.

(** A decimal digit of ASCII. *)
Definition digit (c : ascii) : option Z :=
  let n := N_of_ascii c in
  if ((48 <=? n) && (n <=? 57))%N then Some (Z.of_N n - 48) else None.

Fixpoint lstrip (s : string) : string :=
  match s with
  | EmptyString => EmptyString
  | String c s' => if is_space c then lstrip s' else s
  end.

Definition strip (s : string) : string :=
  String.rev (lstrip (String.rev (lstrip s))).

(** Decimal digits, with single underscores allowed between two digits.
    [after_digit] tells whether the previous character was a digit. *)
Fixpoint digits (acc : Z) (after_digit : bool) (s : string) : option Z :=
  match s with
  | EmptyString => if after_digit then Some acc else None
  | String c s' =>
      if Ascii.eqb c "_" then
        if after_digit then digits acc false s' else None
      else
        match digit c with
        | Some d => digits (10 * acc + d) true s'
        | None => None
        end
  end.

Definition literal (s : string) : option Z :=
  match strip s with
  | String "-" s' => Z.opp <$> digits 0 false s'
  | String "+" s' => digits 0 false s'
  | s' => digits 0 false s'
  end.

(** [int(v)]: the integer, or the exception raised. The message for a
    [str] shows at most 200 characters of its [repr]. *)
Definition int (v : value) : exn + Z :=
  match v with
  | VInt n => inr n
  | VBool b => inr (if b then 1 else 0)
  | VStr s =>
      match literal s with
      | Some n => inr n
      | None =>
          inl (ValueError ("invalid literal for int() with base 10: " +:+
                           String.substring 0 200 (repr s)))
      end
  | VNone =>
      inl (TypeError
        "int() argument must be a string, a bytes-like object or a real number, not 'NoneType'")
  end.

(** A value within the model of [int]: any JSON scalar, and text when it
    is ASCII. *)
Definition plain (v : value) : bool :=
  match v with
  | VStr s => is_ascii s
  | _ => true
  end.

(** *** Floating-point rendering of a byte count *)

(** [float(n)] for an [int]: the nearest number with 53 significant bits, ties
    to even. From 2^53 on every such number is an integer, so the result is
    given as an integer. (Integers beyond the range of a double, where Python
    raises [OverflowError], are out of the model: see [in_double].) *)
Definition float_of_nonneg (m : Z) : Z :=
  let bits := Z.log2 m + 1 in
  if bits <=? 53 then m
  else
    let sh := bits - 53 in
    let q := Z.shiftr m sh in
    let r := Z.land m (Z.ones sh) in
    let half := Z.shiftl 1 (sh - 1) in
    let q' := if (half <? r) || ((r =? half) && Z.odd q) then q + 1 else q in
    Z.shiftl q' sh.

(** [format(num/den, '.2f')] for an exact quotient of a non-negative [num]
    by a positive [den]: two decimals, rounded to nearest, ties to even. *)
Definition hundredths (num den : Z) : Z :=
  let q := (100 * num) / den in
  let r := (100 * num) mod den in
  if (den <? 2 * r) || ((2 * r =? den) && Z.odd q) then q + 1 else q.

Definition format_2f (num den : Z) : string :=
  let h := hundredths (float_of_nonneg (Z.abs num)) den in
  (if num <? 0 then "-" else EmptyString) +:+
  str_int (h / 100) +:+ "." +:+ pad2 (Z.to_N (h mod 100)).

End Py.

(** ** The world outside the handler *)

Module World.
Import Py.

(** Broken-down local time, as [localtime] returns it. *)
Record tm := {
  tm_year : N;
  tm_mon : N;
  tm_mday : N;
  tm_hour : N;
  tm_min : N;
  tm_sec : N
}.

(** [strftime('%Y-%m-%d %H:%M:%S', t)]. *)
Definition strftime (t : tm) : string :=
  str_int (Z.of_N (tm_year t)) +:+ "-" +:+ pad2 (tm_mon t) +:+ "-" +:+
  pad2 (tm_mday t) +:+ " " +:+ pad2 (tm_hour t) +:+ ":" +:+
  pad2 (tm_min t) +:+ ":" +:+ pad2 (tm_sec t).

(** A GET request: the address and the [params] dictionary, in the order the
    keys were written. *)
Record request := {
  uri : string;
  params : list (string * value)
}.

#[global] Instance request_eq_dec : EqDecision request.
Proof. solve_decision. Defined.

(** One element of the [files] array of a listing response. The Slack API
    gives [timestamp] and [size] as JSON integers. *)
Record entry := {
  e_id : string;
  e_name : string;
  e_timestamp : Z;
  e_mimetype : string;
  e_size : Z
}.

(** The body of a response once [loads] has parsed it: a JSON object with
    scalar fields and, for a listing, the [files] array. *)
Record reply := {
  fields : gmap string value;
  files_array : option (list entry)
}.

(** What the handler cannot decide for itself. The answer to a GET may
    depend on every request issued before it; [inl e] stands for [get] or
    [loads] raising [e]. [localtime] is given for every number of seconds:
    the clock readings and the timestamps of a listing are within the range
    of the platform's [time_t], outside of which Python raises. *)
Record world := {
  clock : nat -> Z;
  localtime : Z -> tm;
  environ : gmap string string;
  access_secret_version : string -> exn + string;
  http_get : list request -> request -> exn + reply
}.

(** What an invocation has done to the world so far: the requests it has
    issued, oldest first, and how many times it has read the clock. *)
Record state := {
  sent : list request;
  ticks : nat
}.

Definition start : state := {| sent := []; ticks := O |}.

End World.

(** ** Statements that return and raise *)

Module Exec.
Import Py.

(** How a block of statements ends: it runs to its end, it executes
    [return v], or it raises. *)
Inductive outcome (A : Type) :=
  | Normal (a : A)
  | Return (v : value)
  | Raise (e : exn).
Arguments Normal {A} a.
Arguments Return {A} v.
Arguments Raise {A} e.

(** A block over a state [S]. The state a block has reached is kept when it
    returns or raises: assignments made in a [try] body are seen by its
    handler and by its [finally] clause. *)
Definition Exec (S A : Type) : Type := S -> S * outcome A.

Definition ret {S A} (a : A) : Exec S A := fun s => (s, Normal a).

Definition bind {S A B} (m : Exec S A) (k : A -> Exec S B) : Exec S B :=
  fun s =>
    match m s with
    | (s', Normal a) => k a s'
    | (s', Return v) => (s', Return v)
    | (s', Raise e) => (s', Raise e)
    end.

Definition return_ {S A} (v : value) : Exec S A := fun s => (s, Return v).
Definition raise {S A} (e : exn) : Exec S A := fun s => (s, Raise e).

Definition gets {S A} (f : S -> A) : Exec S A := fun s => (s, Normal (f s)).
Definition modify {S} (f : S -> S) : Exec S unit := fun s => (f s, Normal tt).

(** The result of an expression that may raise. *)
Definition lift {S A} (r : exn + A) : Exec S A :=
  match r with
  | inl e => raise e
  | inr a => ret a
  end.

(** [try: body except Exception as e: handler e]. *)
Definition try_except {S A} (body : Exec S A) (handler : exn -> Exec S A)
  : Exec S A :=
  fun s =>
    match body s with
    | (s', Raise e) => handler e s'
    | r => r
    end.

(** [try: body finally: final]. The [finally] clause runs however the body
    ended; when the clause itself returns or raises, that replaces the way
    the body ended. *)
Definition try_finally {S A} (body : Exec S A) (final : Exec S unit)
  : Exec S A :=
  fun s =>
    let '(s1, o) := body s in
    match final s1 with
    | (s2, Normal _) => (s2, o)
    | (s2, Return v) => (s2, Return v)
    | (s2, Raise e) => (s2, Raise e)
    end.

(** [for x in xs: body x]. *)
Fixpoint for_each {S A} (xs : list A) (body : A -> Exec S unit) : Exec S unit :=
  match xs with
  | [] => ret tt
  | x :: xs' => bind (body x) (fun _ => for_each xs' body)
  end.

(** Calling a function whose body is [body], with fresh local variables [l]:
    the value of the call is the value returned, [None] when the body runs
    to its end. *)
Definition call {L S} (l : L) (body : Exec (L * S) unit) : Exec S value :=
  fun s =>
    match body (l, s) with
    | ((_, s'), Normal _) => (s', Normal VNone)
    | ((_, s'), Return v) => (s', Normal v)
    | ((_, s'), Raise e) => (s', Raise e)
    end.

Declare Scope exec_scope.
Delimit Scope exec_scope with exec.
Notation "x <- m ;; k" := (bind m (fun x => k))
  (at level 100, m at next level, k at level 200, right associativity)
  : exec_scope.
Notation "m ;; k" := (bind m (fun _ => k))
  (at level 100, k at level 200, right associativity) : exec_scope.

End Exec.

(** ** The handler *)

Import Py World Exec.
Local Open Scope exec_scope.

(** [sum(xs)] and [any(xs)]. *)
Definition sum (xs : list Z) : Z := foldr Z.add 0 xs.
Definition any (xs : list bool) : bool := existsb id xs.

(** The part of a [flask.Request] the handler reads: the query string as
    [request.args], a multi-dict that keeps the pairs in the order of the
    query string and answers [get] with the first value of a key; and the
    body, as [request.get_json()] gives it: [None] or a JSON object. *)
Record http_request := {
  args : list (string * string);
  get_json : option (gmap string value)
}.

(** [name in request.args] and [request.args.get(name)]. *)
Definition args_has (name : string) (a : list (string * string)) : bool :=
  existsb (fun kv => String.eqb name kv.1) a.

Fixpoint args_get (name : string) (a : list (string * string)) : value :=
  match a with
  | [] => VNone
  | (k, v) :: a' => if String.eqb name k then VStr v else args_get name a'
  end.

(** Truth value of a multi-dict and of the parsed body: an empty collection
    and [None] are false. *)
Definition args_truthy (a : list (string * string)) : bool :=
  match a with
  | [] => false
  | _ :: _ => true
  end.

Definition json_truthy (j : option (gmap string value)) : bool :=
  match j with
  | None => false
  | Some d => negb (bool_decide (d = ∅))
  end.

(** [name in request_json] and [request_json[name]], reached only when
    [request_json] is a dictionary. *)
Definition json_has (name : string) (j : option (gmap string value)) : bool :=
  match j with
  | None => false
  | Some d => bool_decide (is_Some (d !! name))
  end.

Definition json_getitem (name : string) (j : option (gmap string value))
  : exn + value :=
  match j with
  | None => inl (TypeError "'NoneType' object is not subscriptable")
  | Some d =>
      match d !! name with
      | Some v => inr v
      | None => inl (KeyError name)
      end
  end.

(** bytes to MB *)
Definition MBFACTOR : Z := Z.shiftl 1 20.

(** The module-level [mimetypes]. The parentheses of the source hold one
    string and no comma, so the name is bound to the [str] ['document'], not
    to a tuple of one element. *)
Definition mimetypes : string := "document".

(** A file as [list_files] hands it on: the dictionary it builds for each
    entry it keeps. *)
Record file := {
  id : string;
  name : string;
  timestamp : string;
  mimetype : string;
  size : Z
}.

(** The local variables of [delete_files]. *)
Record frame := {
  count : Z;
  deleted_size : Z;
  return_value : string
}.

Definition files_list_uri : string := "https://slack.com/api/files.list".
Definition files_delete_uri : string := "https://slack.com/api/files.delete".

(** The request [delete_files] issues for the file [f]. *)
Definition delete_request (token : string) (f : file) : request :=
  {| uri := files_delete_uri;
     params := [("token", VStr token); ("file", VStr (id f))] |}.

(** [dresponse[key]]. *)
Definition getitem (r : reply) (key : string) : exn + value :=
  match fields r !! key with
  | Some v => inr v
  | None => inl (KeyError key)
  end.

(** The last line of the report of [delete_files]. *)
Definition summary_line (now : string) (fsize amount count deleted_size : Z)
  : string :=
  "[i] " +:+ now +:+ " Attempted to delete " +:+ format_2f fsize MBFACTOR +:+
  " MB in " +:+ str_int amount +:+ " files, actually deleted " +:+
  str_int count +:+ " files sized " +:+ format_2f deleted_size MBFACTOR +:+
  " MB".

Definition dry_run_message : string := "[i] DRY RUN, NO FILES DELETED" +:+ newline.

Section Handler.

Variable w : world.

(** *** Primitives that touch the world *)

(** [int(time())]: one more reading of the clock. *)
Definition time : Exec state Z :=
  fun s => ({| sent := sent s; ticks := S (ticks s) |}, Normal (clock w (ticks s))).

(** [loads(get(uri, params=params).text)]. *)
Definition get (u : string) (ps : list (string * value)) : Exec state reply :=
  fun s =>
    let r := {| uri := u; params := ps |} in
    let s' := {| sent := sent s ++ [r]; ticks := ticks s |} in
    match http_get w (sent s) r with
    | inl e => (s', Raise e)
    | inr b => (s', Normal b)
    end.

(** A statement on the world, inside a function with local variables. *)
Definition on_world {L A} (m : Exec state A) : Exec (L * state) A :=
  fun ls =>
    let '(s', o) := m ls.2 in ((ls.1, s'), o).

(** An assignment to the local variables. *)
Definition assign {S} (f : frame -> frame) : Exec (frame * S) unit :=
  modify (fun ls => (f ls.1, ls.2)).

(** *** [check_arg] *)

Definition check_arg (arg_name : string) (request : http_request)
    (default_value : value) : Exec state value :=
  let request_json := get_json request in
  if args_truthy (args request) && args_has arg_name (args request) then
    ret (args_get arg_name (args request))
  else if json_truthy request_json && json_has arg_name request_json then
    lift (json_getitem arg_name request_json)
  else
    ret default_value.

(** *** [calculate_days] and [current_timestamp] *)

Definition calculate_days (days : value) : Exec state Z :=
  now <- time ;;
  d <- lift (int days) ;;
  ret (now - d * 24 * 60 * 60).

Definition current_timestamp : Exec state string :=
  now <- time ;;
  ret (strftime (localtime w now)).

(** *** [list_files] *)

(** The test of the loop: [any([mimetype in f['mimetype'] for mimetype in
    mimetypes])]. *)
Definition wanted (f : entry) : bool :=
  any (map (fun mimetype => str_in mimetype (e_mimetype f)) (str_iter mimetypes)).

Definition reshape (f : entry) : file :=
  {| id := e_id f;
     name := e_name f;
     timestamp := strftime (localtime w (e_timestamp f));
     mimetype := e_mimetype f;
     size := e_size f |}.

(** The loop [for f in resp], appending to [files]. *)
Fixpoint collect (resp : list entry) (files : list file) : list file :=
  match resp with
  | [] => files
  | f :: resp' =>
      collect resp' (if wanted f then files ++ [reshape f] else files)
  end.

Definition list_files (token : string) (days count : value)
  : Exec state (list file) :=
  n <- lift (int count) ;;
  ts_to <- calculate_days days ;;
  let params := [("token", VStr token); ("count", VInt n); ("ts_to", VInt ts_to)] in
  response <- get files_list_uri params ;;
  resp <- lift (match files_array response with
                | Some fs => inr fs
                | None => inl (KeyError "files")
                end) ;;
  ret (collect resp []).

(** *** [delete_files] *)

(** One turn of the loop [for f in files]. *)
Definition delete_one (token : string) (f : file) : Exec (frame * state) unit :=
  assign (fun l => {| count := count l + 1;
                      deleted_size := deleted_size l;
                      return_value := return_value l |}) ;;
  assign (fun l => {| count := count l;
                      deleted_size := deleted_size l + size f;
                      return_value := return_value l |}) ;;
  dresponse <- on_world (get files_delete_uri (params (delete_request token f))) ;;
  ok <- lift (getitem dresponse "ok") ;;
  if truthy ok then ret tt
  else
    _ <- lift (getitem dresponse "error") ;;
    ret tt.

Definition append_report (text : string) : Exec (frame * state) unit :=
  assign (fun l => {| count := count l;
                      deleted_size := deleted_size l;
                      return_value := return_value l +:+ text |}).

(** The body of [try]; the three assignments that open it are the initial
    frame, [fresh]. *)
Definition fresh : frame :=
  {| count := 0; deleted_size := 0; return_value := EmptyString |}.

Definition try_block (token : string) (files : list file) (view_only : value)
  : Exec (frame * state) unit :=
  n <- lift (int view_only) ;;
  (if n =? 1 then
     append_report dry_run_message ;;
     return_ VNone
   else ret tt) ;;
  for_each files (delete_one token).

(** [except Exception as e]. *)
Definition except_block (e : exn) : Exec (frame * state) unit :=
  append_report ("<br><br>" +:+ str_exn e +:+ "<br><br>").

(** [finally]. *)
Definition finally_block (fsize amount : Z) : Exec (frame * state) unit :=
  now <- on_world current_timestamp ;;
  l <- gets fst ;;
  append_report (summary_line now fsize amount (count l) (deleted_size l)) ;;
  text <- gets (fun ls => return_value ls.1) ;;
  return_ (VStr (str_replace newline "<br><br>" text)).

(** The whole body: [try ... except ... finally ...]. *)
Definition delete_body (token : string) (files : list file)
    (view_only : value) (fsize amount : Z) : Exec (frame * state) unit :=
  try_finally
    (try_except (try_block token files view_only) except_block)
    (finally_block fsize amount).

Definition delete_files (token : string) (files : list file)
    (view_only : value) (fsize amount : Z) : Exec state value :=
  call fresh (delete_body token files view_only fsize amount).

(** *** [main] *)

(** [environ.get(name)], as an f-string renders it. *)
Definition environ_get (name : string) : string :=
  match environ w !! name with
  | Some v => v
  | None => "None"
  end.

(** The name of the secret, built from the two environment variables. *)
Definition resource_name : string :=
  let project_id := environ_get "GCP_PROJECT" in
  let secret_id := environ_get "SLACK_TOKEN_SECRET" in
  "projects/" +:+ project_id +:+ "/secrets/" +:+ secret_id +:+ "/versions/latest".

(** What [main] does once the three parameters are resolved. *)
Definition main_body (days_count files_count dry_run : value)
  : Exec state string :=
  now <- current_timestamp ;;
  let title_result :=
    "[i] " +:+ now +:+ " Deleting files older than " +:+ str days_count +:+ " days" in
  slack_token <- lift (access_secret_version w resource_name) ;;
  files <- list_files slack_token days_count files_count ;;
  let size_to_delete := sum (map size files) in
  let num_files := Z.of_nat (length files) in
  now' <- current_timestamp ;;
  let files_found :=
    "[i] " +:+ now' +:+ " Found " +:+ str_int num_files +:+ " files in " +:+
    format_2f size_to_delete MBFACTOR +:+ " MB" in
  report <- delete_files slack_token files dry_run size_to_delete num_files ;;
  ret (title_result +:+ "<br><br>" +:+ files_found +:+ "<br><br>" +:+ str report).

Definition main (request : http_request) : Exec state string :=
  days_count <- check_arg "days" request (VInt 30) ;;
  files_count <- check_arg "count" request (VInt 1000) ;;
  dry_run <- check_arg "just_a_test" request (VInt 1) ;;
  main_body days_count files_count dry_run.

End Handler.

(** ** Vocabulary of the statements *)

(** How one turn of the deletion loop ends once the answer [r] to its
    request is known: [None] when the turn runs to its end, the exception
    otherwise. *)
Definition turn_end (r : exn + reply) : option exn :=
  match r with
  | inl e => Some e
  | inr b =>
      match getitem b "ok" with
      | inl e => Some e
      | inr ok =>
          if truthy ok then None
          else match getitem b "error" with
               | inl e => Some e
               | inr _ => None
               end
      end
  end.

(** The files whose turn the loop starts, given the requests [h] issued
    before it, and the exception that stops it, if any: the candidates in
    order, up to and including the first one whose turn raises. *)
Fixpoint attempted (w : world) (token : string) (h : list request)
    (files : list file) : list file * option exn :=
  match files with
  | [] => ([], None)
  | f :: files' =>
      match turn_end (http_get w h (delete_request token f)) with
      | Some e => ([f], Some e)
      | None =>
          let '(fs, o) := attempted w token (h ++ [delete_request token f]) files' in
          (f :: fs, o)
      end
  end.

(** The frame and the state the deletion loop reaches from [(l, s)] when it
    has started the turns of [fs], and the way it ends. *)
Definition advance (token : string) (l : frame) (s : state) (fs : list file)
  : frame * state :=
  ({| count := count l + Z.of_nat (length fs);
      deleted_size := deleted_size l + sum (map size fs);
      return_value := return_value l |},
   {| sent := sent s ++ map (delete_request token) fs; ticks := ticks s |}).

Definition ended (o : option exn) : outcome unit :=
  match o with
  | None => Normal tt
  | Some e => Raise e
  end.

(** The text [current_timestamp] gives when called in the state [s]. *)
Definition stamp (w : world) (s : state) : string :=
  strftime (localtime w (clock w (ticks s))).

(** Every delete call of the loop is answered by a JSON object with an [ok]
    field, and an [error] field when [ok] is false. *)
Definition all_answered (w : world) (token : string) (h : list request)
    (files : list file) : Prop :=
  (attempted w token h files).2 = None.

(** The requests sent to the delete endpoint. *)
Definition delete_calls (s : state) : list request :=
  filter (fun r => uri r = files_delete_uri) (sent s).

(** The parameter resolution as the specification words it: the value of the
    query string when the name is there, otherwise the value of the JSON
    body when the name is there, otherwise the default. *)
Definition resolved (name : string) (request : http_request) (default : value)
  : value :=
  match list_find (fun kv => kv.1 = name) (args request) with
  | Some (_, (_, v)) => VStr v
  | None =>
      match get_json request ≫= (fun d => d !! name) with
      | Some v => v
      | None => default
      end
  end.

(** The filter as the specification words it: the MIME type contains
    ["document"]. *)
Definition is_document (f : entry) : bool := str_in "document" (e_mimetype f).

(** ** A sample workspace *)

Module Sample.

Definition noon : tm :=
  {| tm_year := 2020; tm_mon := 3; tm_mday := 7;
     tm_hour := 12; tm_min := 0; tm_sec := 5 |}.

Definition picture : entry :=
  {| e_id := "F1"; e_name := "cat.png"; e_timestamp := 1580000000;
     e_mimetype := "image/png"; e_size := 1572864 |}.

Definition archive : entry :=
  {| e_id := "F2"; e_name := "logs.gz"; e_timestamp := 1580000100;
     e_mimetype := "x-gzip"; e_size := 4096 |}.

Definition report_docx : entry :=
  {| e_id := "F3"; e_name := "report.docx"; e_timestamp := 1580000200;
     e_mimetype := "application/vnd.openxmlformats-officedocument.wordprocessingml.document";
     e_size := 1048576 |}.

Definition listing : reply :=
  {| fields := {[ "ok" := VBool true ]};
     files_array := Some [picture; archive; report_docx] |}.

Definition deleted : reply :=
  {| fields := {[ "ok" := VBool true ]}; files_array := None |}.

Definition refused : reply :=
  {| fields := <[ "error" := VStr "file_not_found" ]> {[ "ok" := VBool false ]};
     files_array := None |}.

(** A workspace that answers the listing and refuses every deletion. *)
Definition refusing : world :=
  {| clock := fun n => 1600000000 + Z.of_nat n;
     localtime := fun _ => noon;
     environ := {[ "GCP_PROJECT" := "proj" ]};
     access_secret_version := fun _ => inr "xoxp-1";
     http_get := fun _ r =>
       if String.eqb (uri r) files_list_uri then inr listing else inr refused |}.

(** A workspace whose delete endpoint answers the first call and cannot be
    reached from the second call on. *)
Definition flaky : world :=
  {| clock := fun n => 1600000000 + Z.of_nat n;
     localtime := fun _ => noon;
     environ := {[ "GCP_PROJECT" := "proj" ]};
     access_secret_version := fun _ => inr "xoxp-1";
     http_get := fun h r =>
       if String.eqb (uri r) files_list_uri then inr listing
       else match filter (fun r' => uri r' = files_delete_uri) h with
            | [] => inr deleted
            | _ :: _ => inl (IOError "connection reset")
            end |}.

Definition query (a : list (string * string)) : http_request :=
  {| args := a; get_json := None |}.

Definition two_files : list file :=
  [reshape refusing picture; reshape refusing report_docx].

Definition three_files : list file :=
  [reshape flaky picture; reshape flaky report_docx; reshape flaky archive].

End Sample.

(** ** Vocabulary of the further statements *)

(** The request [list_files] issues. *)
Definition list_request (token : string) (count ts_to : Z) : request :=
  {| uri := files_list_uri;
     params := [("token", VStr token); ("count", VInt count); ("ts_to", VInt ts_to)] |}.

(** The entries of a listing that pass the test of [list_files], reshaped,
    in the order of the listing. *)
Definition kept (w : world) (resp : list entry) : list file :=
  map (reshape w) (List.filter wanted resp).

(** The two lines [main] puts before the report, and the page it returns. *)
Definition title_text (now : string) (days_count : value) : string :=
  "[i] " +:+ now +:+ " Deleting files older than " +:+ str days_count +:+ " days".

Definition found_text (now : string) (files : list file) : string :=
  "[i] " +:+ now +:+ " Found " +:+ str_int (Z.of_nat (length files)) +:+
  " files in " +:+ format_2f (sum (map size files)) MBFACTOR +:+ " MB".

Definition page (title found report : string) : string :=
  title +:+ "<br><br>" +:+ found +:+ "<br><br>" +:+ report.

(** The state of an invocation that has read the clock [k] more times. *)
Definition later (k : nat) (s : state) : state :=
  {| sent := sent s; ticks := (k + ticks s)%nat |}.

(** The state after [main] has sent its listing request [r] and read the
    clock for the title, for the lower bound and for the line of the files
    found. *)
Definition listed (r : request) (s : state) : state :=
  {| sent := sent s ++ [r]; ticks := (3 + ticks s)%nat |}.

(** The three parameters of [request] resolve to [d], [c] and [t]. *)
Definition supplied (request : http_request) (s : state) (d c t : value) : Prop :=
  (check_arg "days" request (VInt 30) s).2 = Normal d
  /\ (check_arg "count" request (VInt 1000) s).2 = Normal c
  /\ (check_arg "just_a_test" request (VInt 1) s).2 = Normal t.

(** The integers [float] converts: those that round to a double. From
    [DBL_LIMIT] on, the conversion of the byte counts in [main] and in
    [delete_files] raises [OverflowError]; no listing of a workspace gives
    such sizes, and the statements about the figures of the report are
    stated within this range. *)
Definition DBL_LIMIT : Z := 2 ^ 1024 - 2 ^ 970.

Definition in_double (n : Z) : bool := Z.abs n <? DBL_LIMIT.

(** Every size the deletion loop can reach as [deleted_size] converts. *)
Definition sizes_in_double (files : list file) : bool :=
  forallb (fun k => in_double (sum (map size (take k files))))
    (seq 0 (S (length files))).

(** The number a run of decimal digits stands for, read after the number
    [acc]. *)
Fixpoint uint_value (acc : Z) (d : Decimal.uint) : Z :=
  match d with
  | Decimal.Nil => acc
  | Decimal.D0 d' => uint_value (10 * acc) d'
  | Decimal.D1 d' => uint_value (10 * acc + 1) d'
  | Decimal.D2 d' => uint_value (10 * acc + 2) d'
  | Decimal.D3 d' => uint_value (10 * acc + 3) d'
  | Decimal.D4 d' => uint_value (10 * acc + 4) d'
  | Decimal.D5 d' => uint_value (10 * acc + 5) d'
  | Decimal.D6 d' => uint_value (10 * acc + 6) d'
  | Decimal.D7 d' => uint_value (10 * acc + 7) d'
  | Decimal.D8 d' => uint_value (10 * acc + 8) d'
  | Decimal.D9 d' => uint_value (10 * acc + 9) d'
  end.

(** No white space occurs in [s]. *)
Fixpoint space_free (s : string) : bool :=
  match s with
  | EmptyString => true
  | String c s' => negb (is_space c) && space_free s'
  end.

(** ** More sample workspaces *)

Module Cases.

(** The answer of Slack to a token it does not accept. *)
Definition invalid_auth : reply :=
  {| fields := <[ "error" := VStr "invalid_auth" ]> {[ "ok" := VBool false ]};
     files_array := None |}.

(** A workspace that rejects the token. *)
Definition unauthorised : world :=
  {| clock := fun n => 1600000000 + Z.of_nat n;
     localtime := fun _ => Sample.noon;
     environ := {[ "GCP_PROJECT" := "proj" ]};
     access_secret_version := fun _ => inr "xoxp-0";
     http_get := fun _ _ => inr invalid_auth |}.

(** A project whose secret cannot be read, and whose variables are unset. *)
Definition sealed : world :=
  {| clock := fun n => 1600000000 + Z.of_nat n;
     localtime := fun _ => Sample.noon;
     environ := ∅;
     access_secret_version := fun _ => inl (IOError "permission denied");
     http_get := fun _ _ => inr Sample.listing |}.

(** A workspace whose delete endpoint answers with an empty object. *)
Definition terse : world :=
  {| clock := fun n => 1600000000 + Z.of_nat n;
     localtime := fun _ => Sample.noon;
     environ := {[ "GCP_PROJECT" := "proj" ]};
     access_secret_version := fun _ => inr "xoxp-1";
     http_get := fun _ r =>
       if String.eqb (uri r) files_list_uri then inr Sample.listing
       else inr {| fields := ∅; files_array := None |} |}.

(** A workspace that lists nothing the filter keeps and would delete
    whatever it is asked to. *)
Definition tidy : world :=
  {| clock := fun n => 1600000000 + Z.of_nat n;
     localtime := fun _ => Sample.noon;
     environ := {[ "GCP_PROJECT" := "proj" ]};
     access_secret_version := fun _ => inr "xoxp-1";
     http_get := fun _ r =>
       if String.eqb (uri r) files_list_uri
       then inr {| fields := {[ "ok" := VBool true ]};
                   files_array := Some [Sample.archive] |}
       else inr Sample.deleted |}.

(** The three parameters, as text in the query string and as integers in
    the JSON body. *)
Definition as_text (days count flag : Z) : http_request :=
  {| args := [("days", str_int days); ("count", str_int count);
              ("just_a_test", str_int flag)];
     get_json := None |}.

Definition as_json (days count flag : Z) : http_request :=
  {| args := [];
     get_json := Some (<[ "days" := VInt days ]>
                        (<[ "count" := VInt count ]>
                          {[ "just_a_test" := VInt flag ]})) |}.

(** A request without parameters. *)
Definition plain : http_request := {| args := []; get_json := None |}.

End Cases.

(** ** Strings *)

Section Strings.

Lemma append_nil_r (s : string) : s +:+ EmptyString = s.
Proof. induction s as [|c s IH]; [done|]. unfold String.app in *. simpl. by rewrite IH. Qed.

Lemma append_cons (c : ascii) (s t : string) :
  String c s +:+ t = String c (s +:+ t).
Proof. done. Qed.

Lemma append_assoc (s t u : string) : (s +:+ t) +:+ u = s +:+ (t +:+ u).
Proof.
  induction s as [|c s IH]; [done|].
  rewrite !append_cons. by rewrite IH.
Qed.

Lemma nl_free_app (s t : string) :
  nl_free (s +:+ t) = nl_free s && nl_free t.
Proof.
  induction s as [|c s IH]; [done|].
  rewrite append_cons. simpl. rewrite IH. by rewrite andb_assoc.
Qed.

Lemma prefix_newline (c : ascii) (s : string) :
  String.prefix newline (String c s) = Ascii.eqb c LF.
Proof.
  unfold newline.
  change (String.prefix (String LF EmptyString) (String c s))
    with (if ascii_dec LF c then String.prefix EmptyString s else false).
  destruct (ascii_dec LF c) as [<-|Hne].
  - rewrite Ascii.eqb_refl. by destruct s.
  - symmetry. apply Ascii.eqb_neq. congruence.
Qed.

(** Replacing the line feeds of a text works piece by piece. *)
Lemma replace_newline_app (new s t : string) :
  str_replace newline new (s +:+ t) =
  str_replace newline new s +:+ str_replace newline new t.
Proof.
  unfold str_replace.
  induction s as [|c s IH]; [done|].
  rewrite append_cons.
  change (replace_from newline new 0 (String c (s +:+ t)))
    with (if String.prefix newline (String c (s +:+ t))
          then new +:+ replace_from newline new 0 (s +:+ t)
          else String c (replace_from newline new 0 (s +:+ t))).
  change (replace_from newline new 0 (String c s))
    with (if String.prefix newline (String c s)
          then new +:+ replace_from newline new 0 s
          else String c (replace_from newline new 0 s)).
  rewrite !prefix_newline, IH.
  destruct (Ascii.eqb c LF); [by rewrite append_assoc | done].
Qed.

Lemma replace_newline_free (new s : string) :
  nl_free s = true -> str_replace newline new s = s.
Proof.
  unfold str_replace.
  induction s as [|c s IH]; [done|].
  intros [Hc Hs]%andb_true_iff.
  change (replace_from newline new 0 (String c s))
    with (if String.prefix newline (String c s)
          then new +:+ replace_from newline new 0 s
          else String c (replace_from newline new 0 s)).
  rewrite prefix_newline.
  destruct (Ascii.eqb c LF); [done|]. by rewrite IH.
Qed.

(** After the replacement no line feed is left. *)
Lemma nl_free_replace (new s : string) :
  nl_free new = true -> nl_free (str_replace newline new s) = true.
Proof.
  intros Hnew. unfold str_replace.
  induction s as [|c s IH]; [done|].
  change (replace_from newline new 0 (String c s))
    with (if String.prefix newline (String c s)
          then new +:+ replace_from newline new 0 s
          else String c (replace_from newline new 0 s)).
  rewrite prefix_newline.
  destruct (Ascii.eqb c LF) eqn:Hc.
  - by rewrite nl_free_app, Hnew, IH.
  - simpl. by rewrite Hc, IH.
Qed.

Lemma nl_free_uint (d : Decimal.uint) :
  nl_free (NilEmpty.string_of_uint d) = true.
Proof. induction d; simpl; auto. Qed.

Lemma nl_free_str_int (n : Z) : nl_free (str_int n) = true.
Proof.
  unfold str_int, NilZero.string_of_int, NilZero.string_of_uint.
  destruct (Z.to_int n) as [d|d]; destruct d; simpl; auto using nl_free_uint.
Qed.

Lemma nl_free_pad2 (n : N) : nl_free (pad2 n) = true.
Proof.
  unfold pad2. destruct (n <? 10)%N; [|apply nl_free_str_int].
  by rewrite nl_free_app, nl_free_str_int.
Qed.

Lemma nl_free_format_2f (num den : Z) : nl_free (format_2f num den) = true.
Proof.
  unfold format_2f.
  rewrite !nl_free_app, nl_free_str_int, nl_free_pad2.
  by destruct (num <? 0).
Qed.

Lemma nl_free_strftime (t : tm) : nl_free (strftime t) = true.
Proof.
  unfold strftime. by rewrite !nl_free_app, nl_free_str_int, !nl_free_pad2.
Qed.

Lemma nl_free_summary_line (now : string) (fsize amount count deleted_size : Z) :
  nl_free now = true ->
  nl_free (summary_line now fsize amount count deleted_size) = true.
Proof.
  intros Hnow. unfold summary_line.
  by rewrite !nl_free_app, Hnow, !nl_free_format_2f, !nl_free_str_int.
Qed.

End Strings.

(** ** The deletion loop *)

Section Loop.

Variable w : world.
Variable token : string.

Lemma advance_nil (l : frame) (s : state) : advance token l s [] = (l, s).
Proof.
  destruct l, s. unfold advance. simpl.
  by rewrite Z.add_0_r, Z.add_0_r, app_nil_r.
Qed.

Lemma advance_cons (l : frame) (s : state) (f : file) (fs : list file) :
  advance token l s (f :: fs) =
  advance token {| count := count l + 1;
             deleted_size := deleted_size l + size f;
             return_value := return_value l |}
          {| sent := sent s ++ [delete_request token f]; ticks := ticks s |}
          fs.
Proof.
  unfold advance. simpl. rewrite <- app_assoc. simpl.
  do 2 f_equal; lia.
Qed.

(** One turn: the two counters go up, the request is sent, and the turn ends
    as the answer decides. *)
Lemma delete_one_turn (f : file) (l : frame) (s : state) :
  delete_one w token f (l, s) =
  (advance token l s [f], ended (turn_end (http_get w (sent s) (delete_request token f)))).
Proof.
  rewrite advance_cons, advance_nil.
  unfold delete_one, bind, assign, modify, on_world, get, lift, turn_end,
    delete_request. simpl.
  destruct (http_get w (sent s) _) as [e|b]; [done|].
  destruct (getitem b "ok") as [e|ok]; [done|]. simpl.
  destruct (truthy ok); [done|].
  by destruct (getitem b "error").
Qed.

(** The loop starts the turns of [attempted], in order, and ends as the last
    of them does. *)
Lemma delete_loop (files : list file) (l : frame) (s : state) :
  for_each files (delete_one w token) (l, s) =
  (advance token l s (attempted w token (sent s) files).1,
   ended (attempted w token (sent s) files).2).
Proof.
  revert l s. induction files as [|f files IH]; intros l s.
  - simpl. by rewrite advance_nil.
  - simpl. unfold bind. rewrite delete_one_turn.
    destruct (turn_end _) as [e|]; [done|]. simpl.
    rewrite advance_cons, advance_nil, IH. simpl.
    destruct (attempted _ _ _ files) as [fs o]. simpl.
    by rewrite advance_cons.
Qed.

Lemma attempted_prefix (h : list request) (files : list file) :
  (attempted w token h files).1 `prefix_of` files.
Proof.
  revert h. induction files as [|f files IH]; intros h; simpl.
  - done.
  - destruct (turn_end _).
    + apply prefix_cons, prefix_nil.
    + specialize (IH (h ++ [delete_request token f])).
      destruct (attempted _ _ _ files) as [fs o]. by apply prefix_cons.
Qed.

Lemma attempted_all (h : list request) (files : list file) :
  all_answered w token h files -> (attempted w token h files).1 = files.
Proof.
  unfold all_answered. revert h.
  induction files as [|f files IH]; intros h; simpl; [done|].
  destruct (turn_end _); [done|].
  specialize (IH (h ++ [delete_request token f])).
  destruct (attempted _ _ _ files) as [fs o]. simpl in *.
  intros Ho. by rewrite IH.
Qed.

End Loop.

(** ** The report of [delete_files] *)

Section Report.

Variable w : world.

Lemma finally_block_returns (fsize amount : Z) (l : frame) (s : state) :
  let text :=
    return_value l +:+
    summary_line (stamp w s) fsize amount (count l) (deleted_size l) in
  finally_block w fsize amount (l, s) =
  (({| count := count l; deleted_size := deleted_size l; return_value := text |},
    {| sent := sent s; ticks := S (ticks s) |}),
   Return (VStr (str_replace newline "<br><br>" text))).
Proof. done. Qed.

(** Whatever the guarded block did, the value of the call is the text the
    [finally] clause returns: the accumulated report, its line feeds
    replaced, followed by the summary line. *)
Lemma delete_files_finally (token : string) (files : list file)
    (view_only : value) (fsize amount : Z) (s : state) :
  let r := try_except (try_block w token files view_only) except_block (fresh, s) in
  delete_files w token files view_only fsize amount s =
  ({| sent := sent r.1.2; ticks := S (ticks r.1.2) |},
   Normal (VStr (str_replace newline "<br><br>" (return_value r.1.1) +:+
                 summary_line (stamp w r.1.2) fsize amount
                   (count r.1.1) (deleted_size r.1.1)))).
Proof.
  intros r. unfold delete_files, call, delete_body, try_finally.
  fold r. destruct r as [[l s1] o].
  rewrite finally_block_returns. simpl.
  rewrite replace_newline_app.
  rewrite (replace_newline_free _ (summary_line _ _ _ _ _)); [done|].
  apply nl_free_summary_line, nl_free_strftime.
Qed.

(** The three ways through the guarded block. *)
Lemma guarded_conversion_fails (token : string) (files : list file)
    (view_only : value) (e : exn) (s : state) :
  int view_only = inl e ->
  try_except (try_block w token files view_only) except_block (fresh, s) =
  (({| count := 0; deleted_size := 0;
       return_value := "<br><br>" +:+ str_exn e +:+ "<br><br>" |}, s),
   Normal tt).
Proof.
  intros He. unfold try_except, try_block, bind, lift. by rewrite He.
Qed.

Lemma guarded_dry_run (token : string) (files : list file)
    (view_only : value) (s : state) :
  int view_only = inr 1 ->
  try_except (try_block w token files view_only) except_block (fresh, s) =
  (({| count := 0; deleted_size := 0; return_value := dry_run_message |}, s),
   Return VNone).
Proof.
  intros He. unfold try_except, try_block, bind, lift. by rewrite He.
Qed.

Lemma guarded_loop (token : string) (files : list file)
    (view_only : value) (n : Z) (s : state) :
  int view_only = inr n -> n <> 1 ->
  try_except (try_block w token files view_only) except_block (fresh, s) =
  let a := attempted w token (sent s) files in
  let ls := advance token fresh s a.1 in
  match a.2 with
  | None => (ls, Normal tt)
  | Some e =>
      (({| count := count ls.1; deleted_size := deleted_size ls.1;
           return_value := "<br><br>" +:+ str_exn e +:+ "<br><br>" |}, ls.2),
       Normal tt)
  end.
Proof.
  intros He Hn. unfold try_except, try_block, bind, lift. rewrite He. simpl.
  destruct (Z.eqb_spec n 1) as [|_]; [done|]. simpl.
  rewrite delete_loop.
  by destruct (attempted w token (sent s) files) as [fs [e|]].
Qed.

End Report.

(** ** Checks of the runtime fragment *)

Example format_one_megabyte : format_2f 1048576 MBFACTOR = "1.00".
Proof. reflexivity. Qed.

Example format_one_and_a_half : format_2f 1572864 MBFACTOR = "1.50".
Proof. reflexivity. Qed.

Example format_tie_to_even : format_2f 131072 MBFACTOR = "0.12".
Proof. reflexivity. Qed.

Example int_of_padded_text : int (VStr " 1_000 ") = inr 1000.
Proof. reflexivity. Qed.

Example int_of_true : int (VBool true) = inr 1.
Proof. reflexivity. Qed.

Example replace_line_feeds :
  str_replace newline "<br><br>" ("a" +:+ newline +:+ "b") = "a<br><br>b".
Proof. reflexivity. Qed.

Example sample_listing_kept :
  collect Sample.refusing [Sample.picture; Sample.archive; Sample.report_docx] [] =
  Sample.two_files.
Proof. reflexivity. Qed.

(** The lower bound of the listing is the clock reading less [days] days of
    86400 seconds. *)
Lemma calculate_days_seconds (w : world) (days : value) (n : Z) (s : state) :
  int days = inr n ->
  calculate_days w days s =
  ({| sent := sent s; ticks := S (ticks s) |},
   Normal (clock w (ticks s) - n * 86400)).
Proof.
  intros Hd. unfold calculate_days, bind, time, lift, ret. rewrite Hd. simpl.
  do 2 f_equal. lia.
Qed.

(** ** Parameter resolution *)

Section Parameters.


Lemma args_lookup (name : string) (a : list (string * string)) :
  match list_find (fun kv => kv.1 = name) a with
  | Some (_, (_, v)) => args_has name a = true /\ args_get name a = VStr v
  | None => args_has name a = false
  end.
Proof.
  induction a as [|[k v] a IH]; [done|].
  unfold args_has in *. simpl.
  destruct (String.eqb_spec name k) as [->|Hne].
  - by rewrite decide_True.
  - rewrite decide_False by congruence. simpl.
    by destruct (list_find _ a) as [[i [k' v']]|].
Qed.

Lemma args_has_truthy (name : string) (a : list (string * string)) :
  args_truthy a && args_has name a = args_has name a.
Proof. by destruct a. Qed.

(** [check_arg] touches nothing, never raises, and picks its result as the
    specification says. *)
Lemma check_arg_resolved (name : string) (request : http_request)
    (default : value) (s : state) :
  check_arg name request default s =
  (s, Normal (resolved name request default)).
Proof.
  unfold check_arg, resolved.
  rewrite args_has_truthy.
  pose proof (args_lookup name (args request)) as Ha.
  destruct (list_find _ (args request)) as [[i [k v]]|].
  - destruct Ha as [-> ->]. done.
  - rewrite Ha. clear Ha.
    destruct (get_json request) as [d|]; simpl; [|done].
    destruct (decide (d = ∅)) as [->|Hne].
    + rewrite bool_decide_eq_true_2 by done. simpl. by rewrite lookup_empty.
    + rewrite bool_decide_eq_false_2 by done. simpl.
      destruct (d !! name) as [v|] eqn:Hd.
      * by rewrite bool_decide_eq_true_2 by eauto.
      * by rewrite bool_decide_eq_false_2 by (intros [? ?]; done).
Qed.

End Parameters.

(** C7. Each of [days], [count] and [just_a_test] is resolved by
    [check_arg] to the value of the query string when the name is in the
    query string, otherwise to the value of the parsed JSON body when the
    name is there, otherwise to the default; [main] resolves them with the
    defaults 30, 1000 and 1. Resolution never raises and leaves the world
    untouched. *)
Theorem parameters_resolved (w : world) (request : http_request) (s : state) :
  (forall (name : string) (default : value),
      check_arg name request default s =
      (s, Normal (resolved name request default)))
  /\ main w request s =
     main_body w
       (resolved "days" request (VInt 30))
       (resolved "count" request (VInt 1000))
       (resolved "just_a_test" request (VInt 1)) s.
Proof.
  split; [intros; apply check_arg_resolved|].
  unfold main, bind. by rewrite !check_arg_resolved.
Qed.

(** ** Dry run *)

Lemma dry_run_message_html :
  str_replace newline "<br><br>" dry_run_message =
  "[i] DRY RUN, NO FILES DELETED<br><br>".
Proof. reflexivity. Qed.

Lemma delete_files_dry_run (w : world) (token : string) (files : list file)
    (view_only : value) (fsize amount : Z) (s : state) :
  int view_only = inr 1 ->
  delete_files w token files view_only fsize amount s =
  ({| sent := sent s; ticks := S (ticks s) |},
   Normal (VStr ("[i] DRY RUN, NO FILES DELETED<br><br>" +:+
                 summary_line (stamp w s) fsize amount 0 0))).
Proof.
  intros Hv. rewrite delete_files_finally.
  rewrite (guarded_dry_run w token files view_only s Hv). simpl.
  by rewrite dry_run_message_html.
Qed.

(** C1, as amended. With the dry-run flag set ([int(view_only) == 1]) the
    deletion function leaves the loop out and returns a report that is not
    empty: the dry-run notice, its line feed turned into [<br><br>], followed
    by the summary line with 0 files and 0.00 MB deleted. The bare [return]
    of the [try] body is replaced by the [return] of the [finally] clause. *)
Theorem dry_run_report (w : world) (token : string) (files : list file)
    (view_only : value) (fsize amount : Z) (s : state) :
  int view_only = inr 1 ->
  delete_files w token files view_only fsize amount s =
  ({| sent := sent s; ticks := S (ticks s) |},
   Normal (VStr ("[i] DRY RUN, NO FILES DELETED<br><br>" +:+
                 summary_line (stamp w s) fsize amount 0 0)))
  /\ (delete_files w token files view_only fsize amount s).2
       <> Normal (VStr EmptyString)
  /\ (delete_files w token files view_only fsize amount s).2 <> Normal VNone.
Proof.
  intros Hv. rewrite (delete_files_dry_run w token files view_only _ _ s Hv).
  split; [done|]. split; [|done]. simpl. discriminate.
Qed.

Lemma dry_run_report_witness :
  int (VStr "1") = inr 1 /\
  delete_files Sample.refusing "xoxp-1" Sample.two_files (VStr "1") 2621440 2 start =
  ({| sent := []; ticks := 1 |},
   Normal (VStr ("[i] DRY RUN, NO FILES DELETED<br><br>" +:+
                 summary_line (stamp Sample.refusing start) 2621440 2 0 0))).
Proof.
  split; [reflexivity|].
  apply (dry_run_report Sample.refusing "xoxp-1" Sample.two_files (VStr "1")
           2621440 2 start).
  reflexivity.
Defined.

(** C1, as the specification states it, fails: a dry run over two files
    returns a report that is neither empty nor [None]. *)
Lemma dry_run_returns_text :
  int (VInt 1) = inr 1 /\
  (delete_files Sample.refusing "xoxp-1" Sample.two_files (VInt 1) 2621440 2 start).2 =
    Normal (VStr "[i] DRY RUN, NO FILES DELETED<br><br>[i] 2020-03-07 12:00:05 Attempted to delete 2.50 MB in 2 files, actually deleted 0 files sized 0.00 MB") /\
  (delete_files Sample.refusing "xoxp-1" Sample.two_files (VInt 1) 2621440 2 start).2 <>
    Normal (VStr EmptyString).
Proof. split; [reflexivity|]. split; [vm_compute; reflexivity|]. vm_compute. discriminate. Qed.

(** ** Requests sent by [main] *)

Section Requests.

Variable w : world.

Lemma delete_calls_ticks (h : list request) (n m : nat) :
  delete_calls {| sent := h; ticks := n |} = delete_calls {| sent := h; ticks := m |}.
Proof. done. Qed.

Lemma delete_calls_tick (s : state) :
  delete_calls {| sent := sent s; ticks := S (ticks s) |} = delete_calls s.
Proof. done. Qed.

(** The listing sends at most one request, and not to the delete endpoint. *)
Lemma list_files_calls (token : string) (days count : value) (s : state) :
  delete_calls (list_files w token days count s).1 = delete_calls s.
Proof.
  unfold list_files, calculate_days, bind, lift, time, get. simpl.
  destruct (int count) as [e|n]; [done|]. simpl.
  destruct (int days) as [e|d]; [done|]. simpl.
  assert (forall t, delete_calls
            {| sent := sent s ++
                 [{| uri := files_list_uri;
                     params := [("token", VStr token); ("count", VInt n);
                                ("ts_to", VInt (clock w (ticks s) - d * 24 * 60 * 60))] |}];
               ticks := t |}
          = delete_calls s) as Hsent.
  { intros t. unfold delete_calls. simpl. rewrite filter_app.
    rewrite filter_cons_False by (simpl; discriminate).
    by rewrite filter_nil, app_nil_r. }
  destruct (http_get w (sent s) _) as [e|b]; [apply Hsent|]. simpl.
  destruct (files_array b); apply Hsent.
Qed.

(** When the conversion of [count] or of [days] fails, the listing raises
    before its request is sent. *)
Lemma list_files_conversion_fails (token : string) (days count : value)
    (s : state) :
  (exists e, int count = inl e) \/ (exists e, int days = inl e) ->
  exists e, (list_files w token days count s).2 = Raise e
            /\ sent (list_files w token days count s).1 = sent s.
Proof.
  unfold list_files, calculate_days, bind, lift, time. simpl.
  intros [[e He]|[e He]].
  - rewrite He. by exists e.
  - destruct (int count) as [e'|n]; [by exists e'|]. simpl.
    rewrite He. by exists e.
Qed.

Lemma main_body_dry_run_calls (days count dry_run : value) (s : state) :
  int dry_run = inr 1 ->
  delete_calls (main_body w days count dry_run s).1 = delete_calls s.
Proof.
  intros Hv. unfold main_body, bind, current_timestamp, time, lift. simpl.
  destruct (access_secret_version w _) as [e|token]; [done|]. simpl.
  pose proof (list_files_calls token days count
                {| sent := sent s; ticks := S (ticks s) |}) as Hl.
  destruct (list_files w token days count _) as [s1 [files|v|e]];
    simpl in *; [|done..].
  rewrite (delete_files_dry_run w token files dry_run _ _ _ Hv). simpl.
  etrans; [|exact Hl]. done.
Qed.

End Requests.

(** C4. With the dry-run flag equal to 1, an invocation sends no request to
    the delete endpoint, whatever the candidate files: [main] adds no delete
    call to those already made, and [delete_files] sends nothing at all. *)
Theorem dry_run_makes_no_delete_call (w : world) (request : http_request)
    (s : state) (v : value) :
  (check_arg "just_a_test" request (VInt 1) s).2 = Normal v ->
  int v = inr 1 ->
  delete_calls (main w request s).1 = delete_calls s
  /\ forall (token : string) (files : list file) (fsize amount : Z) (s' : state),
       sent (delete_files w token files v fsize amount s').1 = sent s'.
Proof.
  intros Hres Hv. split.
  - unfold main, bind. rewrite !check_arg_resolved.
    rewrite check_arg_resolved in Hres. simpl in Hres.
    injection Hres as <-.
    by apply main_body_dry_run_calls.
  - intros. by rewrite (delete_files_dry_run w token files v _ _ s' Hv).
Qed.

Lemma dry_run_makes_no_delete_call_witness :
  (check_arg "just_a_test" (Sample.query []) (VInt 1) start).2 = Normal (VInt 1)
  /\ int (VInt 1) = inr 1
  /\ delete_calls (main Sample.refusing (Sample.query []) start).1 = [].
Proof.
  split; [reflexivity|]. split; [reflexivity|].
  apply (dry_run_makes_no_delete_call Sample.refusing (Sample.query []) start (VInt 1));
    reflexivity.
Defined.

(** ** The loop at work *)

Lemma sum_app (xs ys : list Z) : sum (xs ++ ys) = sum xs + sum ys.
Proof.
  unfold sum. induction xs as [|x xs IH]; simpl; [done|]. rewrite IH. lia.
Qed.

Section Batch.

Variable w : world.
Variable token : string.

Lemma delete_files_loop (files : list file) (view_only : value)
    (fsize amount : Z) (s : state) (n : Z) :
  int view_only = inr n -> n <> 1 ->
  let a := attempted w token (sent s) files in
  delete_files w token files view_only fsize amount s =
  ({| sent := sent s ++ map (delete_request token) a.1; ticks := S (ticks s) |},
   Normal (VStr
     (match a.2 with
      | None => EmptyString
      | Some e =>
          "<br><br>" +:+ str_replace newline "<br><br>" (str_exn e) +:+ "<br><br>"
      end +:+
      summary_line (stamp w s) fsize amount
        (Z.of_nat (length a.1)) (sum (map size a.1))))).
Proof.
  intros Hv Hn a. rewrite delete_files_finally.
  rewrite (guarded_loop w token files view_only n s Hv Hn). fold a.
  destruct a as [fs [e|]]; simpl; [|done].
  by rewrite !replace_newline_app.
Qed.

(** The turns up to a first call that raises. *)
Lemma attempted_raise (h : list request) (pre post : list file) (f : file)
    (e : exn) :
  all_answered w token h pre ->
  http_get w (h ++ map (delete_request token) pre) (delete_request token f) = inl e ->
  attempted w token h (pre ++ f :: post) = (pre ++ [f], Some e).
Proof.
  unfold all_answered. revert h.
  induction pre as [|p pre IH]; intros h Hpre Hf; simpl in *.
  - rewrite app_nil_r in Hf. by rewrite Hf.
  - destruct (turn_end _); [done|].
    specialize (IH (h ++ [delete_request token p])).
    destruct (attempted _ _ _ pre) as [fs o]. simpl in *.
    rewrite IH; [done..|]. by rewrite <- app_assoc.
Qed.

Lemma count_bounds (h : list request) (files : list file) :
  (length (attempted w token h files).1 <= length files)%nat.
Proof. apply prefix_length, attempted_prefix. Qed.

End Batch.

(** C10, as amended. The dry-run test is the equality of [int(v)] with 1.
    When it holds (for the string ["1"] as well) the loop is left out and no
    request is sent. When [int(v)] is another integer the loop is entered
    and the delete endpoint is called for the candidate files in order, up
    to and including the first one whose turn raises: for every candidate
    when every call is answered. *)
Theorem dry_run_test_is_equality_to_one (w : world) (token : string)
    (files : list file) (v : value) (fsize amount : Z) (s : state) (n : Z) :
  int v = inr n ->
  sent (delete_files w token files v fsize amount s).1 =
    sent s ++
    (if n =? 1 then []
     else map (delete_request token) (attempted w token (sent s) files).1)
  /\ (attempted w token (sent s) files).1 `prefix_of` files
  /\ (n <> 1 -> all_answered w token (sent s) files ->
      sent (delete_files w token files v fsize amount s).1 =
        sent s ++ map (delete_request token) files).
Proof.
  intros Hv. split; [|split].
  - destruct (Z.eqb_spec n 1) as [->|Hn].
    + rewrite (delete_files_dry_run w token files v _ _ s Hv). simpl.
      by rewrite app_nil_r.
    + by rewrite (delete_files_loop w token files v _ _ s n Hv Hn).
  - apply attempted_prefix.
  - intros Hn Hall.
    rewrite (delete_files_loop w token files v _ _ s n Hv Hn). simpl.
    by rewrite (attempted_all w token _ files Hall).
Qed.

Lemma dry_run_test_is_equality_to_one_witness :
  int (VStr "-2") = inr (-2)
  /\ sent (delete_files Sample.refusing "xoxp-1" Sample.two_files (VStr "-2")
             2621440 2 start).1 =
     map (delete_request "xoxp-1") Sample.two_files.
Proof.
  split; [reflexivity|].
  apply (dry_run_test_is_equality_to_one Sample.refusing "xoxp-1"
           Sample.two_files (VStr "-2") 2621440 2 start (-2));
    [reflexivity | lia | reflexivity].
Defined.

(** C10, as the specification states it, fails: with the flag 0 and a delete
    endpoint that cannot be reached from the second call on, the third of
    three candidates is never requested. *)
Lemma third_file_not_requested :
  int (VInt 0) = inr 0
  /\ sent (delete_files Sample.flaky "xoxp-1" Sample.three_files (VInt 0)
             2625536 3 start).1 =
     map (delete_request "xoxp-1") (take 2 Sample.three_files)
  /\ sent (delete_files Sample.flaky "xoxp-1" Sample.three_files (VInt 0)
             2625536 3 start).1 <>
     map (delete_request "xoxp-1") Sample.three_files.
Proof.
  split; [reflexivity|]. split; [vm_compute; reflexivity|].
  vm_compute. discriminate.
Qed.

(** C3. With the dry run off, both counters go up in every turn of the loop
    before the answer is looked at: whatever [ok] the answers carry, once the
    loop has gone through the files the count is their number and the size
    is the sum of their sizes, and that is what the report says was
    deleted. *)
Theorem refused_deletions_counted (w : world) (token : string)
    (files : list file) (v : value) (fsize amount : Z) (s : state) (n : Z)
    (l : frame) :
  int v = inr n -> n <> 1 ->
  all_answered w token (sent s) files ->
  (for_each files (delete_one w token) (l, s)).2 = Normal tt
  /\ count (for_each files (delete_one w token) (l, s)).1.1 =
     count l + Z.of_nat (length files)
  /\ deleted_size (for_each files (delete_one w token) (l, s)).1.1 =
     deleted_size l + sum (map size files)
  /\ delete_files w token files v fsize amount s =
     ({| sent := sent s ++ map (delete_request token) files;
         ticks := S (ticks s) |},
      Normal (VStr (summary_line (stamp w s) fsize amount
                      (Z.of_nat (length files)) (sum (map size files))))).
Proof.
  intros Hv Hn Hall.
  rewrite delete_loop, (delete_files_loop w token files v _ _ s n Hv Hn).
  rewrite (attempted_all w token _ files Hall).
  unfold all_answered in Hall. rewrite Hall. done.
Qed.

Lemma refused_deletions_counted_witness :
  int (VInt 0) = inr 0
  /\ all_answered Sample.refusing "xoxp-1" [] Sample.two_files
  /\ delete_files Sample.refusing "xoxp-1" Sample.two_files (VInt 0) 2621440 2 start =
     ({| sent := map (delete_request "xoxp-1") Sample.two_files; ticks := 1 |},
      Normal (VStr (summary_line (stamp Sample.refusing start) 2621440 2 2 2621440))).
Proof.
  split; [reflexivity|]. split; [reflexivity|].
  apply (refused_deletions_counted Sample.refusing "xoxp-1" Sample.two_files
           (VInt 0) 2621440 2 start 0 fresh);
    [reflexivity | lia | reflexivity].
Defined.

(** ** The final frame *)

Section Frame.

Variable w : world.

(** However the guarded block went, the counters are those of a prefix of
    the candidates, and the clock was not read. *)
Lemma guarded_frame (token : string) (files : list file) (v : value)
    (s : state) :
  let r := try_except (try_block w token files v) except_block (fresh, s) in
  ticks r.1.2 = ticks s
  /\ exists fs, fs `prefix_of` files
       /\ count r.1.1 = Z.of_nat (length fs)
       /\ deleted_size r.1.1 = sum (map size fs).
Proof.
  destruct (int v) as [e|n] eqn:Hv.
  - rewrite (guarded_conversion_fails w token files v e s Hv). simpl.
    split; [done|]. exists []. split; [apply prefix_nil|done].
  - destruct (decide (n = 1)) as [->|Hn].
    + rewrite (guarded_dry_run w token files v s Hv). simpl.
      split; [done|]. exists []. split; [apply prefix_nil|done].
    + rewrite (guarded_loop w token files v n s Hv Hn).
      pose proof (attempted_prefix w token (sent s) files) as Hp.
      destruct (attempted w token (sent s) files) as [fs [e|]]; simpl in *;
        (split; [done|]); exists fs; done.
Qed.

Lemma delete_body_frame (token : string) (files : list file) (v : value)
    (fsize amount : Z) (s : state) :
  let r := try_except (try_block w token files v) except_block (fresh, s) in
  (delete_body w token files v fsize amount (fresh, s)).1.1 =
  {| count := count r.1.1;
     deleted_size := deleted_size r.1.1;
     return_value :=
       return_value r.1.1 +:+
       summary_line (stamp w s) fsize amount (count r.1.1) (deleted_size r.1.1) |}.
Proof.
  intros r. unfold delete_body, try_finally.
  destruct (guarded_frame token files v s) as [Ht _]. fold r in Ht |- *.
  destruct r as [[l s1] o]. rewrite finally_block_returns. simpl in *.
  unfold stamp. by rewrite Ht.
Qed.

End Frame.

Lemma sum_nonneg (xs : list Z) : Forall (fun x => 0 <= x) xs -> 0 <= sum xs.
Proof. unfold sum. induction 1; simpl; lia. Qed.

Lemma sum_prefix (xs ys : list Z) :
  Forall (fun x => 0 <= x) ys -> xs `prefix_of` ys -> sum xs <= sum ys.
Proof.
  intros Hys [zs ->]. rewrite sum_app.
  apply Forall_app in Hys as [_ Hzs]. pose proof (sum_nonneg zs Hzs). lia.
Qed.

(** The loop of [list_files] appends the entries it keeps, and only those. *)
Lemma collect_bounds (w : world) (resp : list entry) (files : list file) :
  Forall (fun f => 0 <= e_size f) resp ->
  (length (collect w resp files) <= length files + length resp)%nat
  /\ sum (map size (collect w resp files)) <=
     sum (map size files) + sum (map e_size resp)
  /\ (Forall (fun f => 0 <= size f) files ->
      Forall (fun f => 0 <= size f) (collect w resp files)).
Proof.
  intros Hresp. revert files.
  induction Hresp as [|f resp Hf Hresp IH]; intros files; simpl.
  - split; [lia|]. split; [unfold sum; simpl; lia|done].
  - destruct (IH (if wanted f then files ++ [reshape w f] else files))
      as (Hlen & Hsum & Hpos).
    destruct (wanted f).
    + rewrite length_app in Hlen. rewrite map_app, sum_app in Hsum.
      simpl in *. unfold sum in *. simpl in *.
      split; [lia|]. split; [lia|].
      intros Hfiles. apply Hpos, Forall_app. split; [done|]. by constructor.
    + unfold sum in *. simpl. split; [lia|]. split; [lia|done].
Qed.

(** C5. With the dry run off, when the delete call for a file raises, the
    exception is caught by the handler of the batch: its text is appended to
    the report between two [<br><br>], the files after it are not processed,
    and the report still ends with the summary line, whose deleted count and
    size are the counters as they stand after the turn that raised (that
    file counted in). *)
Theorem exception_ends_batch (w : world) (token : string)
    (pre post : list file) (f : file) (v : value) (fsize amount : Z)
    (s : state) (n : Z) (e : exn) :
  int v = inr n -> n <> 1 ->
  all_answered w token (sent s) pre ->
  http_get w (sent s ++ map (delete_request token) pre) (delete_request token f)
    = inl e ->
  let l := (delete_body w token (pre ++ f :: post) v fsize amount (fresh, s)).1.1 in
  count l = Z.of_nat (length pre) + 1
  /\ deleted_size l = sum (map size pre) + size f
  /\ delete_files w token (pre ++ f :: post) v fsize amount s =
     ({| sent := sent s ++ map (delete_request token) (pre ++ [f]);
         ticks := S (ticks s) |},
      Normal (VStr
        ("<br><br>" +:+ str_replace newline "<br><br>" (str_exn e) +:+ "<br><br>" +:+
         "[i] " +:+ stamp w s +:+ " Attempted to delete " +:+
         format_2f fsize MBFACTOR +:+ " MB in " +:+ str_int amount +:+
         " files, actually deleted " +:+ str_int (Z.of_nat (length pre) + 1) +:+
         " files sized " +:+ format_2f (sum (map size pre) + size f) MBFACTOR +:+
         " MB"))).
Proof.
  intros Hv Hn Hpre Hf l.
  assert (Z.of_nat (length (pre ++ [f])) = Z.of_nat (length pre) + 1) as Hlen
    by (rewrite length_app; simpl; lia).
  assert (sum (map size (pre ++ [f])) = sum (map size pre) + size f) as Hsum
    by (rewrite map_app, sum_app; simpl; lia).
  split; [|split].
  - subst l. rewrite delete_body_frame.
    rewrite (guarded_loop w token _ v n s Hv Hn).
    rewrite (attempted_raise w token _ pre post f e Hpre Hf). simpl.
    lia.
  - subst l. rewrite delete_body_frame.
    rewrite (guarded_loop w token _ v n s Hv Hn).
    rewrite (attempted_raise w token _ pre post f e Hpre Hf). simpl.
    lia.
  - rewrite (delete_files_loop w token _ v _ _ s n Hv Hn).
    rewrite (attempted_raise w token _ pre post f e Hpre Hf).
    cbn [fst snd]. rewrite Hlen, Hsum. unfold summary_line.
    by rewrite !append_assoc.
Qed.

Lemma exception_ends_batch_witness :
  int (VInt 0) = inr 0
  /\ all_answered Sample.flaky "xoxp-1" [] [reshape Sample.flaky Sample.picture]
  /\ http_get Sample.flaky
       (map (delete_request "xoxp-1") [reshape Sample.flaky Sample.picture])
       (delete_request "xoxp-1" (reshape Sample.flaky Sample.report_docx))
     = inl (IOError "connection reset")
  /\ delete_files Sample.flaky "xoxp-1" Sample.three_files (VInt 0) 2625536 3 start =
     ({| sent := map (delete_request "xoxp-1") (take 2 Sample.three_files);
         ticks := 1 |},
      Normal (VStr "<br><br>connection reset<br><br>[i] 2020-03-07 12:00:05 Attempted to delete 2.50 MB in 3 files, actually deleted 2 files sized 2.50 MB")).
Proof.
  split; [reflexivity|]. split; [reflexivity|]. split; [reflexivity|].
  apply (exception_ends_batch Sample.flaky "xoxp-1"
           [reshape Sample.flaky Sample.picture]
           [reshape Sample.flaky Sample.archive]
           (reshape Sample.flaky Sample.report_docx)
           (VInt 0) 2625536 3 start 0 (IOError "connection reset"));
    [reflexivity | lia | reflexivity | reflexivity].
Defined.

(** C6. Whatever the files, the flag, and whether an exception was caught
    (the flag being within the model of [int], the byte counts within the
    range of a double), the function
    returns the accumulated text with every line feed replaced by
    [<br><br>]; the accumulated text ends with the summary line, which gives
    the attempted size and count and then the two counters as deleted count
    and size, and which the replacement leaves as it is; no line feed
    remains in the report. *)
Theorem report_ends_with_summary (w : world) (token : string)
    (files : list file) (v : value) (fsize amount : Z) (s : state) :
  plain v = true -> in_double fsize = true -> sizes_in_double files = true ->
  let l := (delete_body w token files v fsize amount (fresh, s)).1.1 in
  let line :=
    "[i] " +:+ stamp w s +:+ " Attempted to delete " +:+
    format_2f fsize MBFACTOR +:+ " MB in " +:+ str_int amount +:+
    " files, actually deleted " +:+ str_int (count l) +:+ " files sized " +:+
    format_2f (deleted_size l) MBFACTOR +:+ " MB" in
  exists text : string,
    return_value l = text +:+ line
    /\ (delete_files w token files v fsize amount s).2 =
       Normal (VStr (str_replace newline "<br><br>" (return_value l)))
    /\ str_replace newline "<br><br>" (return_value l) =
       str_replace newline "<br><br>" text +:+ line
    /\ nl_free (str_replace newline "<br><br>" (return_value l)) = true.
Proof.
  intros _ _ _ l line. subst l line.
  rewrite delete_body_frame, delete_files_finally.
  destruct (guarded_frame w token files v s) as [Ht _].
  set (r := try_except _ _ _) in *. simpl.
  exists (return_value r.1.1).
  assert (nl_free (summary_line (stamp w s) fsize amount (count r.1.1)
                     (deleted_size r.1.1)) = true) as Hline
    by apply nl_free_summary_line, nl_free_strftime.
  unfold summary_line in *.
  split; [done|]. split; [|split].
  - rewrite replace_newline_app, (replace_newline_free _ _ Hline).
    unfold stamp. by rewrite Ht.
  - by rewrite replace_newline_app, (replace_newline_free _ _ Hline).
  - by apply nl_free_replace.
Qed.

Lemma report_ends_with_summary_witness :
  plain (VInt 0) = true
  /\ in_double 2625536 = true
  /\ sizes_in_double Sample.three_files = true
  /\ (delete_files Sample.flaky "xoxp-1" Sample.three_files (VInt 0) 2625536 3 start).2 =
     Normal (VStr "<br><br>connection reset<br><br>[i] 2020-03-07 12:00:05 Attempted to delete 2.50 MB in 3 files, actually deleted 2 files sized 2.50 MB").
Proof.
  split; [reflexivity|]. split; [reflexivity|]. split; [reflexivity|].
  destruct (report_ends_with_summary Sample.flaky "xoxp-1" Sample.three_files
              (VInt 0) 2625536 3 start eq_refl eq_refl eq_refl)
    as (text & _ & Hreport & _ & _).
  rewrite Hreport. reflexivity.
Defined.

(** C9. For a listing whose sizes are byte counts (none negative), the
    files kept are no more than the entries listed and weigh no more; and
    however the deletion goes, the two counters stay within the number and
    the total size of the candidates. *)
Theorem counters_within_candidates (w : world) (resp : list entry)
    (token : string) (v : value) (fsize amount : Z) (s : state) :
  Forall (fun f => 0 <= e_size f) resp ->
  let files := collect w resp [] in
  let l := (delete_body w token files v fsize amount (fresh, s)).1.1 in
  (length files <= length resp)%nat
  /\ sum (map size files) <= sum (map e_size resp)
  /\ 0 <= count l <= Z.of_nat (length files)
  /\ 0 <= deleted_size l <= sum (map size files).
Proof.
  intros Hresp files l.
  destruct (collect_bounds w resp [] Hresp) as (Hlen & Hsum & Hpos).
  specialize (Hpos (Forall_nil_2 _)). fold files in Hlen, Hsum, Hpos.
  split; [simpl in Hlen; lia|]. split; [unfold sum in *; simpl in *; lia|].
  subst l. rewrite delete_body_frame. simpl.
  destruct (guarded_frame w token files v s) as (_ & fs & Hfs & -> & ->).
  assert (Forall (fun x => 0 <= x) (map size files)) as Hsizes.
  { apply Forall_map. exact Hpos. }
  assert (map size fs `prefix_of` map size files) as Hpre.
  { destruct Hfs as [k ->]. rewrite map_app. by eexists. }
  pose proof (prefix_length _ _ Hfs).
  pose proof (sum_prefix _ _ Hsizes Hpre).
  assert (0 <= sum (map size fs)).
  { apply sum_nonneg. destruct Hpre as [k Hk]. rewrite Hk in Hsizes.
    by apply Forall_app in Hsizes as [? _]. }
  lia.
Qed.

Lemma counters_within_candidates_witness :
  Forall (fun f => 0 <= e_size f)
    [Sample.picture; Sample.archive; Sample.report_docx]
  /\ let files :=
       collect Sample.refusing
         [Sample.picture; Sample.archive; Sample.report_docx] [] in
     let l :=
       (delete_body Sample.refusing "xoxp-1" files (VInt 0) 2621440 2
          (fresh, start)).1.1 in
     (length files <= 3)%nat
     /\ sum (map size files) <= 2625536
     /\ 0 <= count l <= Z.of_nat (length files)
     /\ 0 <= deleted_size l <= sum (map size files).
Proof.
  assert (Forall (fun f => 0 <= e_size f)
            [Sample.picture; Sample.archive; Sample.report_docx]) as H
    by (repeat constructor; simpl; lia).
  split; [exact H|].
  apply (counters_within_candidates Sample.refusing
           [Sample.picture; Sample.archive; Sample.report_docx]
           "xoxp-1" (VInt 0) 2621440 2 start H).
Defined.

(** C2, on the code. [mimetypes] is the string ['document'], so the loop of
    [list_files] tests the MIME type against each of its eight characters:
    an entry is kept as soon as its MIME type has one of the letters d, o,
    c, u, m, e, n, t. The entry of type [image/png] is kept, though the word
    ["document"] does not occur in it. *)
Theorem mimetypes_iterated_by_character (w : world) :
  (forall f : entry,
      wanted f =
      existsb (fun c => str_in c (e_mimetype f))
        ["d"; "o"; "c"; "u"; "m"; "e"; "n"; "t"])
  /\ is_document Sample.picture = false
  /\ wanted Sample.picture = true
  /\ collect w [Sample.picture; Sample.archive] [] = [reshape w Sample.picture].
Proof.
  split; [|done].
  intros f. unfold wanted, any, mimetypes. simpl.
  by destruct (str_in "d" _), (str_in "o" _), (str_in "c" _), (str_in "u" _),
    (str_in "m" _), (str_in "e" _), (str_in "n" _), (str_in "t" _).
Qed.

(** ** Values that [int] rejects *)

Section Conversions.

Variable w : world.

Lemma delete_files_conversion_fails (token : string) (files : list file)
    (v : value) (fsize amount : Z) (s : state) (e : exn) :
  int v = inl e ->
  delete_files w token files v fsize amount s =
  ({| sent := sent s; ticks := S (ticks s) |},
   Normal (VStr
     ("<br><br>" +:+ str_replace newline "<br><br>" (str_exn e) +:+ "<br><br>" +:+
      summary_line (stamp w s) fsize amount 0 0))).
Proof.
  intros Hv. rewrite delete_files_finally.
  rewrite (guarded_conversion_fails w token files v e s Hv). simpl.
  by rewrite !replace_newline_app, !append_assoc.
Qed.

Lemma main_body_listing_fails (days count dry_run : value) (s : state) :
  (exists e, int count = inl e) \/ (exists e, int days = inl e) ->
  exists e, (main_body w days count dry_run s).2 = Raise e
            /\ sent (main_body w days count dry_run s).1 = sent s.
Proof.
  intros Hconv. unfold main_body, bind, current_timestamp, time, lift. simpl.
  destruct (access_secret_version w _) as [e|token]; [by exists e|]. simpl.
  destruct (list_files_conversion_fails w token days count
              {| sent := sent s; ticks := S (ticks s) |} Hconv)
    as (e & Ho & Hs).
  destruct (list_files w token days count _) as [s1 o]. simpl in *.
  subst o. by exists e.
Qed.

Lemma main_body_flag_fails (days count dry_run : value) (s : state)
    (token : string) (files : list file) (e : exn) :
  int dry_run = inl e ->
  access_secret_version w (resource_name w) = inr token ->
  (list_files w token days count {| sent := sent s; ticks := S (ticks s) |}).2
    = Normal files ->
  exists html,
    (main_body w days count dry_run s).2 = Normal html
    /\ delete_calls (main_body w days count dry_run s).1 = delete_calls s.
Proof.
  intros Hv Htoken Hlist.
  unfold main_body, bind, current_timestamp, time, lift. simpl.
  rewrite Htoken. simpl.
  pose proof (list_files_calls w token days count
                {| sent := sent s; ticks := S (ticks s) |}) as Hcalls.
  destruct (list_files w token days count _) as [s1 o]. simpl in *. subst o.
  rewrite (delete_files_conversion_fails token files dry_run _ _ _ e Hv). simpl.
  eexists. split; [done|]. etrans; [|exact Hcalls]. done.
Qed.

End Conversions.

(** C8, as the specification states it, fails for [just_a_test]: with the
    flag ["soon"], which [int] rejects, the invocation does not fail; it
    returns its page, with the text of the exception in the report. *)
Lemma rejected_flag_is_served :
  int (VStr "soon") = inl (ValueError "invalid literal for int() with base 10: 'soon'")
  /\ (main Sample.refusing (Sample.query [("just_a_test", "soon")]) start).2 =
     Normal "[i] 2020-03-07 12:00:05 Deleting files older than 30 days<br><br>[i] 2020-03-07 12:00:05 Found 2 files in 2.50 MB<br><br><br><br>invalid literal for int() with base 10: 'soon'<br><br>[i] 2020-03-07 12:00:05 Attempted to delete 2.50 MB in 2 files, actually deleted 0 files sized 0.00 MB"
  /\ (forall e, (main Sample.refusing (Sample.query [("just_a_test", "soon")]) start).2
                <> Raise e).
Proof.
  split; [reflexivity|]. split; [vm_compute; reflexivity|].
  intros e. vm_compute. discriminate.
Qed.

(** ** The listing *)

Section Listing.

Variable w : world.

Lemma collect_kept (resp : list entry) (files : list file) :
  collect w resp files = files ++ kept w resp.
Proof.
  unfold kept. revert files.
  induction resp as [|f resp IH]; intros files; simpl.
  - by rewrite app_nil_r.
  - rewrite IH. destruct (wanted f); [|done].
    simpl. by rewrite <- app_assoc.
Qed.

(** What [list_files] does, by the way its two conversions and its request
    end. *)
Lemma list_files_count_fails (token : string) (days count : value)
    (s : state) (e : exn) :
  int count = inl e ->
  list_files w token days count s = (s, Raise e).
Proof. intros He. unfold list_files, bind, lift. by rewrite He. Qed.

Lemma list_files_days_fails (token : string) (days count : value)
    (s : state) (n : Z) (e : exn) :
  int count = inr n -> int days = inl e ->
  list_files w token days count s = (later 1 s, Raise e).
Proof.
  intros Hn He. unfold list_files, calculate_days, bind, lift, time.
  rewrite Hn. simpl. by rewrite He.
Qed.

Lemma list_files_sent (token : string) (days count : value) (s : state)
    (n d : Z) :
  int count = inr n -> int days = inr d ->
  let r := list_request token n (clock w (ticks s) - d * 86400) in
  list_files w token days count s =
  ({| sent := sent s ++ [r]; ticks := S (ticks s) |},
   match http_get w (sent s) r with
   | inl e => Raise e
   | inr b =>
       match files_array b with
       | Some resp => Normal (kept w resp)
       | None => Raise (KeyError "files")
       end
   end).
Proof.
  intros Hn Hd r. unfold list_files, calculate_days, bind, lift, time, get.
  rewrite Hn. simpl. rewrite Hd. simpl.
  replace (clock w (ticks s) - d * 24 * 60 * 60)
    with (clock w (ticks s) - d * 86400) by lia.
  fold (list_request token n (clock w (ticks s) - d * 86400)). fold r.
  destruct (http_get w (sent s) r) as [e|b]; [done|]. simpl.
  destruct (files_array b) as [resp|]; [|done]. simpl.
  unfold ret. by rewrite collect_kept.
Qed.

End Listing.

(** X1. The loop of [list_files] keeps the entries that pass its test and
    no others, in the order of the listing; a kept entry carries its id,
    name, MIME type and size unchanged. *)
Theorem kept_in_listing_order (w : world) (resp : list entry) :
  collect w resp [] = map (reshape w) (List.filter wanted resp)
  /\ map id (collect w resp []) = map e_id (List.filter wanted resp)
  /\ map name (collect w resp []) = map e_name (List.filter wanted resp)
  /\ map mimetype (collect w resp []) = map e_mimetype (List.filter wanted resp)
  /\ map size (collect w resp []) = map e_size (List.filter wanted resp).
Proof.
  rewrite collect_kept. unfold kept. simpl.
  repeat split; rewrite map_map; done.
Qed.

(** X2. When [int] accepts [count] and [days], [list_files] reads the clock
    once and sends one request, to [files.list], with the token, the count
    and the lower bound (the clock less 86400 seconds a day) in that order;
    when the answer has a [files] array, the result is the kept files. *)
Theorem list_files_asks_once (w : world) (token : string) (days count : value)
    (s : state) (n d : Z) (b : reply) (resp : list entry) :
  int count = inr n -> int days = inr d ->
  http_get w (sent s) (list_request token n (clock w (ticks s) - d * 86400)) = inr b ->
  files_array b = Some resp ->
  list_files w token days count s =
  ({| sent := sent s ++ [list_request token n (clock w (ticks s) - d * 86400)];
      ticks := S (ticks s) |},
   Normal (kept w resp)).
Proof.
  intros Hn Hd Hb Hresp.
  rewrite (list_files_sent w token days count s n d Hn Hd). simpl.
  by rewrite Hb, Hresp.
Qed.

Lemma list_files_asks_once_witness :
  int (VStr "1000") = inr 1000 /\ int (VInt 30) = inr 30
  /\ list_files Sample.refusing "xoxp-1" (VInt 30) (VStr "1000") start =
     ({| sent := [list_request "xoxp-1" 1000 1597408000]; ticks := 1 |},
      Normal Sample.two_files).
Proof.
  split; [reflexivity|]. split; [reflexivity|].
  apply (list_files_asks_once Sample.refusing "xoxp-1" (VInt 30) (VStr "1000")
           start 1000 30 Sample.listing
           [Sample.picture; Sample.archive; Sample.report_docx]);
    reflexivity.
Defined.

(** ** The invocation as a whole *)

Section Invocation.

Variable w : world.

(** [delete_files] always returns a text. *)
Lemma delete_files_text (token : string) (files : list file) (v : value)
    (fsize amount : Z) (s : state) :
  exists text,
    (delete_files w token files v fsize amount s).2 = Normal (VStr text).
Proof. rewrite delete_files_finally. simpl. by eexists. Qed.

(** [main] up to the secret. *)
Lemma main_body_secret_fails (days count dry_run : value) (s : state)
    (e : exn) :
  access_secret_version w (resource_name w) = inl e ->
  main_body w days count dry_run s = (later 1 s, Raise e).
Proof.
  intros He. unfold main_body, bind, current_timestamp, time, lift. simpl.
  by rewrite He.
Qed.

(** [main] up to the listing. *)
Lemma main_body_listing (days count dry_run : value) (s : state)
    (token : string) (n d : Z) :
  access_secret_version w (resource_name w) = inr token ->
  int count = inr n -> int days = inr d ->
  let r := list_request token n (clock w (S (ticks s)) - d * 86400) in
  main_body w days count dry_run s =
  match http_get w (sent s) r with
  | inl e => ({| sent := sent s ++ [r]; ticks := S (S (ticks s)) |}, Raise e)
  | inr b =>
      match files_array b with
      | None =>
          ({| sent := sent s ++ [r]; ticks := S (S (ticks s)) |},
           Raise (KeyError "files"))
      | Some resp =>
          let files := kept w resp in
          let report :=
            delete_files w token files dry_run
              (sum (map size files)) (Z.of_nat (length files)) (listed r s) in
          (report.1,
           match report.2 with
           | Normal text =>
               Normal (page (title_text (stamp w s) days)
                         (found_text (stamp w (later 2 s)) files) (str text))
           | Return v => Return v
           | Raise e => Raise e
           end)
      end
  end.
Proof.
  intros Htoken Hn Hd r.
  unfold main_body, bind, current_timestamp, time, lift. simpl.
  rewrite Htoken. simpl.
  rewrite (list_files_sent w token days count _ n d Hn Hd). simpl. fold r.
  destruct (http_get w (sent s) r) as [e|b]; [done|].
  destruct (files_array b) as [resp|]; [|done]. simpl.
  change {| sent := sent s ++ [r]; ticks := S (S (S (ticks s))) |}
    with (listed r s).
  by destruct (delete_files w token (kept w resp) dry_run _ _ (listed r s))
    as [s4 [text|v|e]].
Qed.

End Invocation.

(** The turns up to the first one that raises, however it raises. *)
Lemma attempted_stops (w : world) (token : string) (h : list request)
    (pre post : list file) (f : file) (e : exn) :
  all_answered w token h pre ->
  turn_end (http_get w (h ++ map (delete_request token) pre)
              (delete_request token f)) = Some e ->
  attempted w token h (pre ++ f :: post) = (pre ++ [f], Some e).
Proof.
  unfold all_answered. revert h.
  induction pre as [|p pre IH]; intros h Hpre Hf; simpl in *.
  - rewrite app_nil_r in Hf. by rewrite Hf.
  - destruct (turn_end (http_get w h (delete_request token p))); [done|].
    specialize (IH (h ++ [delete_request token p])).
    destruct (attempted _ _ _ pre) as [fs o]. simpl in *.
    rewrite IH; [done..|]. by rewrite <- app_assoc.
Qed.

Lemma delete_files_all_answered (w : world) (token : string)
    (files : list file) (v : value) (fsize amount : Z) (s : state) (n : Z) :
  int v = inr n -> n <> 1 ->
  all_answered w token (sent s) files ->
  delete_files w token files v fsize amount s =
  ({| sent := sent s ++ map (delete_request token) files; ticks := S (ticks s) |},
   Normal (VStr (summary_line (stamp w s) fsize amount
                   (Z.of_nat (length files)) (sum (map size files))))).
Proof.
  intros Hv Hn Hall.
  rewrite (delete_files_loop w token files v _ _ s n Hv Hn).
  rewrite (attempted_all w token _ files Hall).
  unfold all_answered in Hall. by rewrite Hall.
Qed.

Lemma main_supplied (w : world) (request : http_request) (s : state)
    (d c t : value) :
  supplied request s d c t ->
  main w request s = main_body w d c t s.
Proof.
  unfold supplied. rewrite !check_arg_resolved. simpl.
  intros ([= <-] & [= <-] & [= <-]).
  unfold main, bind. by rewrite !check_arg_resolved.
Qed.

(** X4. The secret is fetched before any parameter is converted and before
    any request: when the secret store raises, the invocation fails with
    that exception, whatever the parameters, having read the clock once and
    sent nothing. *)
Theorem secret_failure_is_fatal (w : world) (request : http_request)
    (s : state) (e : exn) :
  access_secret_version w (resource_name w) = inl e ->
  main w request s = ({| sent := sent s; ticks := S (ticks s) |}, Raise e).
Proof.
  intros He. unfold main, bind. rewrite !check_arg_resolved.
  by rewrite (main_body_secret_fails w _ _ _ s e He).
Qed.

Lemma secret_failure_is_fatal_witness :
  resource_name Cases.sealed = "projects/None/secrets/None/versions/latest"
  /\ main Cases.sealed (Sample.query [("days", "soon")]) start =
     ({| sent := []; ticks := 1 |}, Raise (IOError "permission denied")).
Proof.
  split; [reflexivity|].
  apply (secret_failure_is_fatal Cases.sealed (Sample.query [("days", "soon")])
           start (IOError "permission denied")).
  reflexivity.
Defined.

(** X5. When the listing request raises, or its answer has no [files]
    array (as the answer to a rejected token), the invocation fails: with
    the exception of the request, or with [KeyError: 'files']. The listing
    request is the only one sent. *)
Theorem listing_failure_is_fatal (w : world) (request : http_request)
    (s : state) (d c t : value) (token : string) (n dd : Z) :
  supplied request s d c t ->
  access_secret_version w (resource_name w) = inr token ->
  int c = inr n -> int d = inr dd ->
  (forall b,
      http_get w (sent s) (list_request token n (clock w (S (ticks s)) - dd * 86400))
        = inr b ->
      files_array b = None) ->
  main w request s =
  ({| sent := sent s ++ [list_request token n (clock w (S (ticks s)) - dd * 86400)];
      ticks := S (S (ticks s)) |},
   Raise match http_get w (sent s)
                 (list_request token n (clock w (S (ticks s)) - dd * 86400)) with
         | inl e => e
         | inr _ => KeyError "files"
         end).
Proof.
  intros Hsup Htoken Hn Hd Hnone.
  rewrite (main_supplied w request s d c t Hsup).
  rewrite (main_body_listing w d c t s token n dd Htoken Hn Hd). simpl.
  destruct (http_get w (sent s) _) as [e|b]; [done|].
  by rewrite (Hnone b eq_refl).
Qed.

Lemma listing_failure_is_fatal_witness :
  supplied Cases.plain start (VInt 30) (VInt 1000) (VInt 1)
  /\ main Cases.unauthorised Cases.plain start =
     ({| sent := [list_request "xoxp-0" 1000 1597408001]; ticks := 2 |},
      Raise (KeyError "files")).
Proof.
  assert (supplied Cases.plain start (VInt 30) (VInt 1000) (VInt 1)) as Hsup
    by (repeat split).
  split; [exact Hsup|].
  apply (listing_failure_is_fatal Cases.unauthorised Cases.plain start
           (VInt 30) (VInt 1000) (VInt 1) "xoxp-0" 1000 30 Hsup);
    [reflexivity | reflexivity | reflexivity |].
  intros b [= <-]. reflexivity.
Defined.

(** X7. End to end, with the dry run off: when every delete call is
    answered, [main] sends the listing request and then one delete request
    for each kept file, in the order of the listing, reads the clock four
    times, and returns the page whose last line gives the number and the
    total size of the kept files both as attempted and as deleted, whatever
    the answers said. *)
Theorem invocation_deletes_kept_files (w : world) (request : http_request)
    (s : state) (d c t : value) (token : string) (n dd k : Z) (b : reply)
    (resp : list entry) :
  supplied request s d c t ->
  access_secret_version w (resource_name w) = inr token ->
  int c = inr n -> int d = inr dd -> int t = inr k -> k <> 1 ->
  http_get w (sent s) (list_request token n (clock w (S (ticks s)) - dd * 86400))
    = inr b ->
  files_array b = Some resp ->
  all_answered w token
    (sent s ++ [list_request token n (clock w (S (ticks s)) - dd * 86400)])
    (kept w resp) ->
  let files := kept w resp in
  let total := sum (map size files) in
  let number := Z.of_nat (length files) in
  main w request s =
  ({| sent := sent s ++ list_request token n (clock w (S (ticks s)) - dd * 86400)
                        :: map (delete_request token) files;
      ticks := (4 + ticks s)%nat |},
   Normal
     (("[i] " +:+ stamp w s +:+ " Deleting files older than " +:+ str d +:+ " days") +:+
      "<br><br>" +:+
      ("[i] " +:+ stamp w (later 2 s) +:+ " Found " +:+ str_int number +:+
       " files in " +:+ format_2f total MBFACTOR +:+ " MB") +:+
      "<br><br>" +:+
      ("[i] " +:+ stamp w (later 3 s) +:+ " Attempted to delete " +:+
       format_2f total MBFACTOR +:+ " MB in " +:+ str_int number +:+
       " files, actually deleted " +:+ str_int number +:+ " files sized " +:+
       format_2f total MBFACTOR +:+ " MB"))).
Proof.
  intros Hsup Htoken Hn Hd Ht Hk Hb Hresp Hall files total number.
  rewrite (main_supplied w request s d c t Hsup).
  rewrite (main_body_listing w d c t s token n dd Htoken Hn Hd). simpl.
  rewrite Hb, Hresp.
  rewrite (delete_files_all_answered w token files t _ _
             (listed (list_request token n (clock w (S (ticks s)) - dd * 86400)) s)
             k Ht Hk Hall).
  simpl. by rewrite <- app_assoc.
Qed.

Lemma invocation_deletes_kept_files_witness :
  supplied (Sample.query [("just_a_test", "0")]) start (VInt 30) (VInt 1000) (VStr "0")
  /\ all_answered Sample.refusing "xoxp-1"
       [list_request "xoxp-1" 1000 (1600000001 - 30 * 86400)] Sample.two_files
  /\ main Sample.refusing (Sample.query [("just_a_test", "0")]) start =
     ({| sent := list_request "xoxp-1" 1000 (1600000001 - 30 * 86400)
                 :: map (delete_request "xoxp-1") Sample.two_files;
         ticks := 4 |},
      Normal "[i] 2020-03-07 12:00:05 Deleting files older than 30 days<br><br>[i] 2020-03-07 12:00:05 Found 2 files in 2.50 MB<br><br>[i] 2020-03-07 12:00:05 Attempted to delete 2.50 MB in 2 files, actually deleted 2 files sized 2.50 MB").
Proof.
  assert (supplied (Sample.query [("just_a_test", "0")]) start
            (VInt 30) (VInt 1000) (VStr "0")) as Hsup by (repeat split).
  split; [exact Hsup|]. split; [reflexivity|].
  apply (invocation_deletes_kept_files Sample.refusing
           (Sample.query [("just_a_test", "0")]) start
           (VInt 30) (VInt 1000) (VStr "0") "xoxp-1" 1000 30 0 Sample.listing
           [Sample.picture; Sample.archive; Sample.report_docx] Hsup);
    [reflexivity | reflexivity | reflexivity | reflexivity | lia
    | reflexivity | reflexivity | reflexivity].
Defined.

(** X8. A request without parameters is a dry run over the last thirty
    days: once the token is there, the invocation sends one request, the
    listing with count 1000 and the lower bound 2592000 seconds before the
    clock reading, and no delete request, however the listing is answered. *)
Theorem plain_request_is_dry_run (w : world) (request : http_request)
    (s : state) (token : string) :
  args request = [] -> get_json request = None ->
  access_secret_version w (resource_name w) = inr token ->
  main w request s = main_body w (VInt 30) (VInt 1000) (VInt 1) s
  /\ sent (main w request s).1 =
     sent s ++ [list_request token 1000 (clock w (S (ticks s)) - 2592000)].
Proof.
  intros Hargs Hjson Htoken.
  assert (main w request s = main_body w (VInt 30) (VInt 1000) (VInt 1) s) as ->.
  { unfold main, bind. rewrite !check_arg_resolved. unfold resolved.
    by rewrite Hargs, Hjson. }
  split; [done|].
  rewrite (main_body_listing w (VInt 30) (VInt 1000) (VInt 1) s token 1000 30
             Htoken eq_refl eq_refl).
  cbv zeta.
  replace (clock w (S (ticks s)) - 30 * 86400)
    with (clock w (S (ticks s)) - 2592000) by lia.
  destruct (http_get w (sent s) _) as [e|b]; [done|].
  destruct (files_array b) as [resp|]; [|done].
  by rewrite (delete_files_dry_run w token (kept w resp) (VInt 1) _ _ _ eq_refl).
Qed.

Lemma plain_request_is_dry_run_witness :
  args Cases.plain = [] /\ get_json Cases.plain = None
  /\ access_secret_version Sample.refusing (resource_name Sample.refusing) = inr "xoxp-1"
  /\ sent (main Sample.refusing Cases.plain start).1 =
     [list_request "xoxp-1" 1000 1597408001].
Proof.
  split; [reflexivity|]. split; [reflexivity|]. split; [reflexivity|].
  apply (plain_request_is_dry_run Sample.refusing Cases.plain start "xoxp-1");
    reflexivity.
Defined.

(** X9. With no candidate file, [delete_files] sends nothing whatever the
    flag, and its report is the notice of the dry run (flag 1), or the text
    of the exception (flag that [int] rejects), or nothing (another flag),
    followed by the summary line, which says that 0 files sized 0.00 MB were
    deleted (the flag being within the model of [int], the attempted size
    within the range of a double). *)
Theorem nothing_to_delete (w : world) (token : string) (v : value)
    (fsize amount : Z) (s : state) :
  plain v = true -> in_double fsize = true ->
  delete_files w token [] v fsize amount s =
  ({| sent := sent s; ticks := S (ticks s) |},
   Normal (VStr
     (match int v with
      | inl e =>
          "<br><br>" +:+ str_replace newline "<br><br>" (str_exn e) +:+ "<br><br>"
      | inr k =>
          if k =? 1 then "[i] DRY RUN, NO FILES DELETED<br><br>" else EmptyString
      end +:+
      "[i] " +:+ stamp w s +:+ " Attempted to delete " +:+
      format_2f fsize MBFACTOR +:+ " MB in " +:+ str_int amount +:+
      " files, actually deleted 0 files sized 0.00 MB"))).
Proof.
  intros _ _.
  assert (summary_line (stamp w s) fsize amount 0 0 =
          "[i] " +:+ stamp w s +:+ " Attempted to delete " +:+
          format_2f fsize MBFACTOR +:+ " MB in " +:+ str_int amount +:+
          " files, actually deleted 0 files sized 0.00 MB") as Hline.
  { unfold summary_line.
    change (str_int 0) with "0". change (format_2f 0 MBFACTOR) with "0.00".
    reflexivity. }
  destruct (int v) as [e|k] eqn:Hv.
  - rewrite (delete_files_conversion_fails w token [] v _ _ _ e Hv).
    rewrite Hline. by rewrite !append_assoc.
  - destruct (Z.eqb_spec k 1) as [->|Hk].
    + rewrite (delete_files_dry_run w token [] v _ _ _ Hv).
      by rewrite Hline.
    + rewrite (delete_files_loop w token [] v _ _ _ k Hv Hk). simpl.
      change (summary_line (stamp w s) fsize amount (Z.of_nat 0) 0)
        with (summary_line (stamp w s) fsize amount 0 0).
      rewrite Hline. by rewrite app_nil_r.
Qed.

Lemma nothing_to_delete_witness :
  plain (VInt 0) = true
  /\ in_double 0 = true
  /\ delete_files Sample.refusing "xoxp-1" [] (VInt 0) 0 0 start =
     ({| sent := []; ticks := 1 |},
      Normal (VStr "[i] 2020-03-07 12:00:05 Attempted to delete 0.00 MB in 0 files, actually deleted 0 files sized 0.00 MB")).
Proof.
  split; [reflexivity|]. split; [reflexivity|].
  apply (nothing_to_delete Sample.refusing "xoxp-1" (VInt 0) 0 0 start);
    reflexivity.
Defined.

(** X10. The arguments [fsize] and [amount] are only written into the
    report: the requests sent, the clock readings and the two counters do
    not depend on them. *)
Theorem figures_only_reported (w : world) (token : string) (files : list file)
    (v : value) (fsize amount fsize' amount' : Z) (s : state) :
  (delete_files w token files v fsize amount s).1 =
  (delete_files w token files v fsize' amount' s).1
  /\ count (delete_body w token files v fsize amount (fresh, s)).1.1 =
     count (delete_body w token files v fsize' amount' (fresh, s)).1.1
  /\ deleted_size (delete_body w token files v fsize amount (fresh, s)).1.1 =
     deleted_size (delete_body w token files v fsize' amount' (fresh, s)).1.1.
Proof.
  rewrite !delete_files_finally, !delete_body_frame. done.
Qed.

(** X11. An answer of the delete endpoint without the [ok] field, or a
    refusal without the [error] field, raises [KeyError] in the loop: the
    handler of the batch catches it, the files after it are not processed,
    and the report names the missing key, in quotes, before the summary
    line, whose deleted count and size are the counters with that file
    counted in. *)
Theorem missing_field_ends_batch (w : world) (token : string)
    (pre post : list file) (f : file) (v : value) (fsize amount : Z)
    (s : state) (n : Z) (b : reply) (key : string) :
  int v = inr n -> n <> 1 ->
  all_answered w token (sent s) pre ->
  http_get w (sent s ++ map (delete_request token) pre) (delete_request token f)
    = inr b ->
  (fields b !! "ok" = None /\ key = "ok")
  \/ (exists ok, fields b !! "ok" = Some ok /\ truthy ok = false
                 /\ fields b !! "error" = None /\ key = "error") ->
  let l := (delete_body w token (pre ++ f :: post) v fsize amount (fresh, s)).1.1 in
  count l = Z.of_nat (length pre) + 1
  /\ deleted_size l = sum (map size pre) + size f
  /\ delete_files w token (pre ++ f :: post) v fsize amount s =
     ({| sent := sent s ++ map (delete_request token) (pre ++ [f]);
         ticks := S (ticks s) |},
      Normal (VStr
        ("<br><br>'" +:+ key +:+ "'<br><br>" +:+
         "[i] " +:+ stamp w s +:+ " Attempted to delete " +:+
         format_2f fsize MBFACTOR +:+ " MB in " +:+ str_int amount +:+
         " files, actually deleted " +:+ str_int (Z.of_nat (length pre) + 1) +:+
         " files sized " +:+ format_2f (sum (map size pre) + size f) MBFACTOR +:+
         " MB"))).
Proof.
  intros Hv Hn Hpre Hb Hkey l.
  assert (turn_end (http_get w (sent s ++ map (delete_request token) pre)
                      (delete_request token f)) = Some (KeyError key)
          /\ str_replace newline "<br><br>" (str_exn (KeyError key)) =
             "'" +:+ key +:+ "'") as [Hend Htext].
  { rewrite Hb. unfold turn_end, getitem.
    destruct Hkey as [[-> ->]|(ok & -> & -> & -> & ->)]; done. }
  assert (Z.of_nat (length (pre ++ [f])) = Z.of_nat (length pre) + 1) as Hlen
    by (rewrite length_app; simpl; lia).
  assert (sum (map size (pre ++ [f])) = sum (map size pre) + size f) as Hsum
    by (rewrite map_app, sum_app; simpl; lia).
  split; [|split].
  - subst l. rewrite delete_body_frame.
    rewrite (guarded_loop w token _ v n s Hv Hn).
    rewrite (attempted_stops w token _ pre post f _ Hpre Hend). simpl. lia.
  - subst l. rewrite delete_body_frame.
    rewrite (guarded_loop w token _ v n s Hv Hn).
    rewrite (attempted_stops w token _ pre post f _ Hpre Hend). simpl. lia.
  - rewrite (delete_files_loop w token _ v _ _ s n Hv Hn).
    rewrite (attempted_stops w token _ pre post f _ Hpre Hend).
    cbn [fst snd]. rewrite Hlen, Hsum, Htext. unfold summary_line.
    by rewrite !append_assoc.
Qed.

Lemma missing_field_ends_batch_witness :
  int (VInt 0) = inr 0
  /\ all_answered Cases.terse "xoxp-1" [] []
  /\ http_get Cases.terse [] (delete_request "xoxp-1" (reshape Cases.terse Sample.picture))
     = inr {| fields := ∅; files_array := None |}
  /\ delete_files Cases.terse "xoxp-1" Sample.two_files (VInt 0) 2621440 2 start =
     ({| sent := [delete_request "xoxp-1" (reshape Cases.terse Sample.picture)];
         ticks := 1 |},
      Normal (VStr "<br><br>'ok'<br><br>[i] 2020-03-07 12:00:05 Attempted to delete 2.50 MB in 2 files, actually deleted 1 files sized 1.50 MB")).
Proof.
  split; [reflexivity|]. split; [reflexivity|]. split; [reflexivity|].
  apply (missing_field_ends_batch Cases.terse "xoxp-1" []
           [reshape Cases.terse Sample.report_docx]
           (reshape Cases.terse Sample.picture) (VInt 0) 2621440 2 start 0
           {| fields := ∅; files_array := None |} "ok");
    [reflexivity | lia | reflexivity | reflexivity |].
  left. split; reflexivity.
Defined.

(** ** Substrings *)

Lemma prefix_split (a s : string) :
  String.prefix a s = true <-> exists q, s = a +:+ q.
Proof.
  revert s. induction a as [|c a IH]; intros s.
  - split; [intros _; by exists s | intros _; by destruct s].
  - destruct s as [|d s].
    + split; [done|]. intros [q Hq]. done.
    + change (String.prefix (String c a) (String d s))
        with (if ascii_dec c d then String.prefix a s else false).
      destruct (ascii_dec c d) as [<-|Hne].
      * rewrite IH. split; intros [q Hq]; exists q.
        -- by rewrite Hq.
        -- rewrite append_cons in Hq. by injection Hq.
      * split; [done|]. intros [q Hq]. rewrite append_cons in Hq.
        injection Hq as ? ?. done.
Qed.

(** [sub in s] holds when [s] is [sub] between two texts. *)
Lemma str_in_split (sub s : string) :
  str_in sub s = true <-> exists p q, s = p +:+ sub +:+ q.
Proof.
  induction s as [|d s IH].
  - change (str_in sub EmptyString)
      with (if String.prefix sub EmptyString then true else false).
    destruct (String.prefix sub EmptyString) eqn:Hp.
    + apply prefix_split in Hp as [q Hq]. split; [|done].
      intros _. by exists EmptyString, q.
    + split; [done|]. intros (p & q & Hpq).
      destruct p; [|done].
      assert (String.prefix sub EmptyString = true) as Hp'
        by (apply prefix_split; by exists q).
      congruence.
  - change (str_in sub (String d s))
      with (if String.prefix sub (String d s) then true else str_in sub s).
    destruct (String.prefix sub (String d s)) eqn:Hp.
    + apply prefix_split in Hp as [q Hq]. split; [|done].
      intros _. by exists EmptyString, q.
    + rewrite IH. split.
      * intros (p & q & ->). by exists (String d p), q.
      * intros (p & q & Hpq). destruct p as [|d' p].
        -- assert (String.prefix sub (String d s) = true) as Hp'
             by (apply prefix_split; by exists q).
           congruence.
        -- rewrite append_cons in Hpq. injection Hpq as -> ->. by exists p, q.
Qed.

(** A character of a text that occurs in [s] occurs in [s]. *)
Lemma str_in_char (a b s : string) (c : ascii) :
  str_in (a +:+ String c b) s = true -> str_in (String c EmptyString) s = true.
Proof.
  rewrite !str_in_split. intros (p & q & ->).
  exists (p +:+ a), (b +:+ q).
  by rewrite !append_assoc.
Qed.

(** X12. An entry whose MIME type contains the word [document] passes the
    test of [list_files]; so does every entry whose MIME type contains
    [audio], [image] or [video]. *)
Theorem documents_and_media_kept (f : entry) :
  is_document f = true
  \/ str_in "audio" (e_mimetype f) = true
  \/ str_in "image" (e_mimetype f) = true
  \/ str_in "video" (e_mimetype f) = true ->
  wanted f = true.
Proof.
  unfold is_document, wanted, any, mimetypes. simpl.
  intros [H|[H|[H|H]]].
  - apply (str_in_char EmptyString "ocument") in H. by rewrite H.
  - apply (str_in_char "a" "dio") in H. rewrite H.
    by rewrite !orb_true_r.
  - apply (str_in_char "i" "age") in H. rewrite H.
    by rewrite !orb_true_r.
  - apply (str_in_char "vi" "eo") in H. by rewrite H.
Qed.

Lemma documents_and_media_kept_witness :
  is_document Sample.report_docx = true /\ wanted Sample.report_docx = true.
Proof.
  split; [reflexivity|].
  apply (documents_and_media_kept Sample.report_docx). left. reflexivity.
Defined.

(** ** Integers written out and read back *)

Lemma rev_app_rev_app (s t u : string) :
  String.rev_app (String.rev_app s t) u = String.rev_app t (s +:+ u).
Proof.
  revert t u. induction s as [|c s IH]; intros t u; [done|].
  simpl. by rewrite IH.
Qed.

Lemma rev_rev (s : string) : String.rev (String.rev s) = s.
Proof. unfold String.rev. by rewrite rev_app_rev_app, append_nil_r. Qed.

Lemma space_free_rev_app (s t : string) :
  space_free (String.rev_app s t) = space_free s && space_free t.
Proof.
  revert t. induction s as [|c s IH]; intros t; [done|].
  simpl. rewrite IH. simpl. by destruct (is_space c), (space_free s).
Qed.

Lemma lstrip_space_free (s : string) : space_free s = true -> lstrip s = s.
Proof. destruct s as [|c s]; [done|]. simpl. by destruct (is_space c). Qed.

(** [strip] leaves a text without white space as it is. *)
Lemma strip_space_free (s : string) : space_free s = true -> strip s = s.
Proof.
  intros Hs. unfold strip.
  rewrite (lstrip_space_free s Hs).
  rewrite lstrip_space_free, rev_rev; [done|].
  unfold String.rev. by rewrite space_free_rev_app, Hs.
Qed.

Lemma space_free_uint (d : Decimal.uint) :
  space_free (NilEmpty.string_of_uint d) = true.
Proof. induction d; simpl; auto. Qed.

Lemma digits_uint (d : Decimal.uint) (acc : Z) :
  digits acc true (NilEmpty.string_of_uint d) = Some (uint_value acc d).
Proof.
  revert acc. induction d; intros acc; simpl; [done|..];
    rewrite IHd; try done. by rewrite Z.add_0_r.
Qed.

Lemma uint_value_acc (d : Decimal.uint) (p : positive) :
  uint_value (Z.pos p) d = Z.pos (Pos.of_uint_acc d p).
Proof.
  revert p. induction d; intros p; simpl; [done|..];
    rewrite <- IHd; f_equal; lia.
Qed.

Lemma uint_value_of_uint (d : Decimal.uint) :
  uint_value 0 d = Z.of_N (Pos.of_uint d).
Proof.
  induction d; simpl; [done|done|..];
    match goal with
    | |- _ = Z.pos (Pos.of_uint_acc ?d ?p) => by rewrite <- (uint_value_acc d p)
    end.
Qed.

Lemma uint_value_to_uint (p : positive) : uint_value 0 (Pos.to_uint p) = Z.pos p.
Proof. by rewrite uint_value_of_uint, DecimalPos.Unsigned.of_to. Qed.

Lemma digits_first (d : Decimal.uint) (acc : Z) :
  d <> Decimal.Nil ->
  digits acc false (NilEmpty.string_of_uint d) = Some (uint_value acc d).
Proof.
  destruct d; [done|..]; intros _; simpl; rewrite digits_uint;
    do 2 f_equal; lia.
Qed.

Lemma to_uint_not_nil (p : positive) : Pos.to_uint p <> Decimal.Nil.
Proof.
  intros Hnil. pose proof (uint_value_to_uint p) as Hv.
  rewrite Hnil in Hv. done.
Qed.

(** A digit is not a sign. *)
Lemma literal_unsigned (d : Decimal.uint) :
  d <> Decimal.Nil ->
  literal (NilEmpty.string_of_uint d) = digits 0 false (NilEmpty.string_of_uint d).
Proof.
  intros Hd. unfold literal.
  rewrite (strip_space_free _ (space_free_uint d)).
  by destruct d.
Qed.

(** [int] reads back what [str] writes. *)
Lemma literal_str_int (n : Z) : literal (str_int n) = Some n.
Proof.
  unfold str_int. destruct n as [|p|p]; [done|..]; simpl;
    pose proof (to_uint_not_nil p) as Hp;
    pose proof (uint_value_to_uint p) as Hv.
  - replace (NilZero.string_of_uint (Pos.to_uint p))
      with (NilEmpty.string_of_uint (Pos.to_uint p))
      by (by destruct (Pos.to_uint p)).
    by rewrite literal_unsigned, digits_first, Hv.
  - replace (NilZero.string_of_uint (Pos.to_uint p))
      with (NilEmpty.string_of_uint (Pos.to_uint p))
      by (by destruct (Pos.to_uint p)).
    unfold literal. rewrite strip_space_free by (simpl; apply space_free_uint).
    by rewrite digits_first, Hv.
Qed.

Lemma main_body_alike (w : world) (d c t d' c' t' : value) (s : state) :
  int d = int d' -> str d = str d' -> int c = int c' -> int t = int t' ->
  main_body w d c t s = main_body w d' c' t' s.
Proof.
  intros Hd Hs Hc Ht.
  unfold main_body, list_files, calculate_days, delete_files, delete_body,
    try_block.
  by rewrite Hd, Hs, Hc, Ht.
Qed.

(** X13. [int] reads back the decimal text of every integer, so a parameter
    given as text in the query string and the same number given as an
    integer in the JSON body make the same invocation: the same requests,
    the same clock readings, the same page. *)
Theorem text_and_integer_alike (w : world) (request request' : http_request)
    (s : state) (a b k : Z) :
  supplied request s (VStr (str_int a)) (VStr (str_int b)) (VStr (str_int k)) ->
  supplied request' s (VInt a) (VInt b) (VInt k) ->
  int (VStr (str_int a)) = inr a
  /\ main w request s = main w request' s.
Proof.
  intros Hsup Hsup'.
  assert (forall n, int (VStr (str_int n)) = int (VInt n)) as Hint.
  { intros n. simpl. by rewrite literal_str_int. }
  split; [by rewrite Hint|].
  rewrite (main_supplied w request s _ _ _ Hsup).
  rewrite (main_supplied w request' s _ _ _ Hsup').
  by apply main_body_alike.
Qed.

Lemma text_and_integer_alike_witness :
  supplied (Cases.as_text 7 50 0) start (VStr (str_int 7)) (VStr (str_int 50))
    (VStr (str_int 0))
  /\ supplied (Cases.as_json 7 50 0) start (VInt 7) (VInt 50) (VInt 0)
  /\ main Sample.refusing (Cases.as_text 7 50 0) start =
     main Sample.refusing (Cases.as_json 7 50 0) start.
Proof.
  assert (supplied (Cases.as_text 7 50 0) start (VStr (str_int 7))
            (VStr (str_int 50)) (VStr (str_int 0))) as H1 by (repeat split).
  assert (supplied (Cases.as_json 7 50 0) start (VInt 7) (VInt 50) (VInt 0))
    as H2 by (repeat split).
  split; [exact H1|]. split; [exact H2|].
  apply (text_and_integer_alike Sample.refusing (Cases.as_text 7 50 0)
           (Cases.as_json 7 50 0) start 7 50 0 H1 H2).
Defined.

(** ** Megabytes *)

Lemma float_of_small (n : Z) : 0 <= n < 2 ^ 53 -> float_of_nonneg n = n.
Proof.
  intros Hn. unfold float_of_nonneg.
  assert (Z.log2 n + 1 <= 53) as Hbits.
  { destruct (decide (n = 0)) as [->|Hne]; [done|].
    assert (Z.log2 n < 53) by (apply Z.log2_lt_pow2; lia). lia. }
  by destruct (Z.leb_spec (Z.log2 n + 1) 53); [|lia].
Qed.

(** X14. The figure printed for a byte count below 2^53 is the count
    divided by 2^20 and rounded to the nearest hundredth of a megabyte, a
    tie going to the even hundredth: the figure is the whole part, a point,
    and two digits. *)
Theorem megabytes_rounded (n : Z) :
  0 <= n < 2 ^ 53 ->
  let h := hundredths n MBFACTOR in
  format_2f n MBFACTOR = str_int (h / 100) +:+ "." +:+ pad2 (Z.to_N (h mod 100))
  /\ 2 * Z.abs (100 * n - h * MBFACTOR) <= MBFACTOR
  /\ (2 * Z.abs (100 * n - h * MBFACTOR) = MBFACTOR -> Z.even h = true).
Proof.
  intros Hn h. split; [|split].
  - unfold format_2f. rewrite Z.abs_eq by lia.
    rewrite (float_of_small n Hn).
    by destruct (Z.ltb_spec n 0); [lia|].
  - subst h. unfold hundredths, MBFACTOR.
    change (Z.shiftl 1 20) with 1048576.
    pose proof (Z.div_mod (100 * n) 1048576 ltac:(lia)) as Hdm.
    pose proof (Z.mod_pos_bound (100 * n) 1048576 ltac:(lia)) as Hr.
    set (q := 100 * n / 1048576) in *. set (r := (100 * n) mod 1048576) in *.
    destruct (Z.ltb_spec 1048576 (2 * r)); simpl.
    + lia.
    + destruct (Z.eqb_spec (2 * r) 1048576); simpl; [destruct (Z.odd q)|]; lia.
  - subst h. unfold hundredths, MBFACTOR.
    change (Z.shiftl 1 20) with 1048576.
    pose proof (Z.div_mod (100 * n) 1048576 ltac:(lia)) as Hdm.
    pose proof (Z.mod_pos_bound (100 * n) 1048576 ltac:(lia)) as Hr.
    set (q := 100 * n / 1048576) in *. set (r := (100 * n) mod 1048576) in *.
    destruct (Z.ltb_spec 1048576 (2 * r)); simpl.
    + lia.
    + destruct (Z.eqb_spec (2 * r) 1048576); simpl.
      * destruct (Z.odd q) eqn:Hodd; intros _.
        -- rewrite Z.even_add. rewrite <- Z.negb_odd, Hodd. done.
        -- by rewrite <- Z.negb_odd, Hodd.
      * lia.
Qed.

Lemma megabytes_rounded_witness :
  0 <= 1572864 < 2 ^ 53
  /\ format_2f 1572864 MBFACTOR = str_int (150 / 100) +:+ "." +:+ pad2 (Z.to_N (150 mod 100)).
Proof.
  split; [lia|].
  apply (megabytes_rounded 1572864). lia.
Defined.

Lemma main_body_rejected_flag_calls (w : world) (days count dry_run : value)
    (s : state) (e : exn) :
  int dry_run = inl e ->
  delete_calls (main_body w days count dry_run s).1 = delete_calls s.
Proof.
  intros Hv. unfold main_body, bind, current_timestamp, time, lift. simpl.
  destruct (access_secret_version w _) as [e'|token]; [done|]. simpl.
  pose proof (list_files_calls w token days count
                {| sent := sent s; ticks := S (ticks s) |}) as Hl.
  destruct (list_files w token days count _) as [s1 [files|v|e']];
    simpl in *; [|done..].
  rewrite (delete_files_conversion_fails w token files dry_run _ _ _ e Hv).
  simpl. etrans; [|exact Hl]. done.
Qed.

(** X15. Files are deleted only on an explicit flag: for a value of
    [just_a_test] within the model of [int] (a JSON scalar or ASCII text),
    unless [int] turns it into an integer other than 1, the invocation sends
    no delete request, whatever the other parameters and however the world
    answers. *)
Theorem deletes_only_on_explicit_flag (w : world) (request : http_request)
    (s : state) (d c t : value) :
  supplied request s d c t ->
  plain t = true ->
  (forall k, int t = inr k -> k = 1) ->
  delete_calls (main w request s).1 = delete_calls s.
Proof.
  intros Hsup _ Hflag.
  rewrite (main_supplied w request s d c t Hsup).
  destruct (int t) as [e|k] eqn:Ht.
  - by apply (main_body_rejected_flag_calls w d c t s e).
  - rewrite (Hflag k eq_refl) in Ht. by apply main_body_dry_run_calls.
Qed.

Lemma deletes_only_on_explicit_flag_witness :
  supplied (Sample.query [("just_a_test", "yes")]) start
    (VInt 30) (VInt 1000) (VStr "yes")
  /\ plain (VStr "yes") = true
  /\ (forall k, int (VStr "yes") = inr k -> k = 1)
  /\ delete_calls (main Sample.refusing (Sample.query [("just_a_test", "yes")]) start).1
     = [].
Proof.
  assert (supplied (Sample.query [("just_a_test", "yes")]) start
            (VInt 30) (VInt 1000) (VStr "yes")) as Hsup by (repeat split).
  assert (forall k, int (VStr "yes") = inr k -> k = 1) as Hflag
    by (intros k Hk; discriminate Hk).
  split; [exact Hsup|]. split; [reflexivity|]. split; [exact Hflag|].
  apply (deletes_only_on_explicit_flag Sample.refusing
           (Sample.query [("just_a_test", "yes")]) start
           (VInt 30) (VInt 1000) (VStr "yes") Hsup eq_refl Hflag).
Defined.

(** ** Conversions that fail, in their place *)

Lemma main_body_count_fails (w : world) (d c t : value) (s : state)
    (token : string) (e : exn) :
  access_secret_version w (resource_name w) = inr token ->
  int c = inl e ->
  main_body w d c t s = (later 1 s, Raise e).
Proof.
  intros Htoken Hc.
  unfold main_body, bind, current_timestamp, time, lift. simpl.
  rewrite Htoken. simpl.
  by rewrite (list_files_count_fails w token d c _ e Hc).
Qed.

Lemma main_body_days_fails (w : world) (d c t : value) (s : state)
    (token : string) (n : Z) (e : exn) :
  access_secret_version w (resource_name w) = inr token ->
  int c = inr n -> int d = inl e ->
  main_body w d c t s = (later 2 s, Raise e).
Proof.
  intros Htoken Hc Hd.
  unfold main_body, bind, current_timestamp, time, lift. simpl.
  rewrite Htoken. simpl.
  by rewrite (list_files_days_fails w token d c _ n e Hc Hd).
Qed.

Lemma calculate_days_fails (w : world) (d : value) (s : state) (e : exn) :
  int d = inl e -> calculate_days w d s = (later 1 s, Raise e).
Proof.
  intros Hd. unfold calculate_days, bind, time, lift. by rewrite Hd.
Qed.

(** C8, as amended. Parameter resolution validates nothing: a value is
    handed on as it was supplied, whether [int] accepts it or not, and the
    secret is fetched before any conversion. For values within the model of
    [int] (JSON scalars and ASCII text), with the secret obtained: when
    [int] rejects the value of [count], that exception is raised in
    [list_files], where the parameters of the listing are built, and [main]
    fails with it after one clock reading; when [int] rejects the value of
    [days], that exception is raised in [calculate_days], after the clock
    was read for the lower bound, and [main] fails with it; no request is
    sent in either case. When [int] rejects the value of [just_a_test], the
    exception is raised inside the [try] of [delete_files] and caught there:
    the report is the text of the exception between two [<br><br>] and the
    summary line with 0 files sized 0.00 MB deleted, no delete request is
    sent, and an invocation that got its listing returns its page. *)
Theorem conversion_failures (w : world) (request : http_request) (s : state)
    (d c t : value) :
  supplied request s d c t ->
  plain d = true -> plain c = true -> plain t = true ->
  (forall (name sv : string) (rest : list (string * string))
          (j : option (gmap string value)) (default : value),
      check_arg name {| args := (name, sv) :: rest; get_json := j |} default s =
      (s, Normal (VStr sv)))
  /\ (forall (name : string) (sv : value) (default : value),
      check_arg name {| args := []; get_json := Some {[ name := sv ]} |} default s =
      (s, Normal sv))
  /\ (forall e, access_secret_version w (resource_name w) = inl e ->
      main w request s = (later 1 s, Raise e))
  /\ (forall token, access_secret_version w (resource_name w) = inr token ->
      (forall e, int c = inl e ->
          list_files w token d c (later 1 s) = (later 1 s, Raise e)
          /\ main w request s = (later 1 s, Raise e))
      /\ (forall n e, int c = inr n -> int d = inl e ->
          calculate_days w d (later 1 s) = (later 2 s, Raise e)
          /\ list_files w token d c (later 1 s) = (later 2 s, Raise e)
          /\ main w request s = (later 2 s, Raise e))
      /\ (forall e, int t = inl e ->
          (forall (files : list file) (fsize amount : Z) (s' : state),
              delete_files w token files t fsize amount s' =
              (later 1 s',
               Normal (VStr
                 ("<br><br>" +:+ str_replace newline "<br><br>" (str_exn e) +:+
                  "<br><br>" +:+
                  "[i] " +:+ stamp w s' +:+ " Attempted to delete " +:+
                  format_2f fsize MBFACTOR +:+ " MB in " +:+ str_int amount +:+
                  " files, actually deleted 0 files sized 0.00 MB"))))
          /\ (forall (n dd : Z) (b : reply) (resp : list entry),
              int c = inr n -> int d = inr dd ->
              http_get w (sent s)
                (list_request token n (clock w (S (ticks s)) - dd * 86400)) = inr b ->
              files_array b = Some resp ->
              main w request s =
              ({| sent := sent s ++
                    [list_request token n (clock w (S (ticks s)) - dd * 86400)];
                  ticks := (4 + ticks s)%nat |},
               Normal
                 (("[i] " +:+ stamp w s +:+ " Deleting files older than " +:+
                   str d +:+ " days") +:+
                  "<br><br>" +:+
                  ("[i] " +:+ stamp w (later 2 s) +:+ " Found " +:+
                   str_int (Z.of_nat (length (kept w resp))) +:+ " files in " +:+
                   format_2f (sum (map size (kept w resp))) MBFACTOR +:+ " MB") +:+
                  "<br><br>" +:+
                  ("<br><br>" +:+ str_replace newline "<br><br>" (str_exn e) +:+
                   "<br><br>" +:+
                   "[i] " +:+ stamp w (later 3 s) +:+ " Attempted to delete " +:+
                   format_2f (sum (map size (kept w resp))) MBFACTOR +:+
                   " MB in " +:+ str_int (Z.of_nat (length (kept w resp))) +:+
                   " files, actually deleted 0 files sized 0.00 MB")))))).
Proof.
  intros Hsup _ _ _.
  rewrite (main_supplied w request s d c t Hsup).
  assert (forall now fsize amount,
             summary_line now fsize amount 0 0 =
             "[i] " +:+ now +:+ " Attempted to delete " +:+
             format_2f fsize MBFACTOR +:+ " MB in " +:+ str_int amount +:+
             " files, actually deleted 0 files sized 0.00 MB") as Hline.
  { intros. unfold summary_line.
    change (str_int 0) with "0". change (format_2f 0 MBFACTOR) with "0.00".
    reflexivity. }
  split; [|split; [|split; [|intros token Htoken; split; [|split]]]].
  - intros. rewrite check_arg_resolved. unfold resolved. simpl.
    by rewrite decide_True.
  - intros. rewrite check_arg_resolved. unfold resolved. simpl.
    by rewrite lookup_singleton_eq.
  - intros e He. by apply main_body_secret_fails.
  - intros e Hc. split.
    + by apply list_files_count_fails.
    + by apply (main_body_count_fails w d c t s token e).
  - intros n e Hc Hd. split; [|split].
    + by rewrite (calculate_days_fails w d _ e Hd).
    + by rewrite (list_files_days_fails w token d c _ n e Hc Hd).
    + by apply (main_body_days_fails w d c t s token n e).
  - intros e Ht. split.
    + intros files fsize amount s'.
      rewrite (delete_files_conversion_fails w token files t _ _ _ e Ht).
      by rewrite Hline.
    + intros n dd b resp Hc Hd Hb Hresp.
      rewrite (main_body_listing w d c t s token n dd Htoken Hc Hd). cbv zeta.
      rewrite Hb, Hresp.
      rewrite (delete_files_conversion_fails w token _ t _ _ _ e Ht).
      by rewrite Hline.
Qed.

Lemma conversion_failures_witness :
  (supplied (Sample.query [("count", "many")]) start (VInt 30) (VStr "many") (VInt 1)
   /\ plain (VStr "many") = true
   /\ main Sample.refusing (Sample.query [("count", "many")]) start =
      ({| sent := []; ticks := 1 |},
       Raise (ValueError "invalid literal for int() with base 10: 'many'")))
  /\ (supplied (Sample.query [("days", "soon")]) start (VStr "soon") (VInt 1000) (VInt 1)
      /\ main Sample.refusing (Sample.query [("days", "soon")]) start =
         ({| sent := []; ticks := 2 |},
          Raise (ValueError "invalid literal for int() with base 10: 'soon'")))
  /\ (supplied (Sample.query [("just_a_test", "soon")]) start
        (VInt 30) (VInt 1000) (VStr "soon")
      /\ main Sample.refusing (Sample.query [("just_a_test", "soon")]) start =
         ({| sent := [list_request "xoxp-1" 1000 1597408001]; ticks := 4 |},
          Normal "[i] 2020-03-07 12:00:05 Deleting files older than 30 days<br><br>[i] 2020-03-07 12:00:05 Found 2 files in 2.50 MB<br><br><br><br>invalid literal for int() with base 10: 'soon'<br><br>[i] 2020-03-07 12:00:05 Attempted to delete 2.50 MB in 2 files, actually deleted 0 files sized 0.00 MB")).
Proof.
  assert (supplied (Sample.query [("count", "many")]) start
            (VInt 30) (VStr "many") (VInt 1)) as H1 by (repeat split).
  assert (supplied (Sample.query [("days", "soon")]) start
            (VStr "soon") (VInt 1000) (VInt 1)) as H2 by (repeat split).
  assert (supplied (Sample.query [("just_a_test", "soon")]) start
            (VInt 30) (VInt 1000) (VStr "soon")) as H3 by (repeat split).
  split; [split; [exact H1|split; [reflexivity|]]
         |split; [split; [exact H2|]|split; [exact H3|]]].
  - destruct (conversion_failures Sample.refusing
                (Sample.query [("count", "many")]) start
                (VInt 30) (VStr "many") (VInt 1) H1 eq_refl eq_refl eq_refl)
      as (_ & _ & _ & Hconv).
    destruct (Hconv "xoxp-1" eq_refl) as (Hcount & _ & _).
    apply (Hcount (ValueError "invalid literal for int() with base 10: 'many'")).
    reflexivity.
  - destruct (conversion_failures Sample.refusing
                (Sample.query [("days", "soon")]) start
                (VStr "soon") (VInt 1000) (VInt 1) H2 eq_refl eq_refl eq_refl)
      as (_ & _ & _ & Hconv).
    destruct (Hconv "xoxp-1" eq_refl) as (_ & Hdays & _).
    apply (Hdays 1000 (ValueError "invalid literal for int() with base 10: 'soon'"));
      reflexivity.
  - destruct (conversion_failures Sample.refusing
                (Sample.query [("just_a_test", "soon")]) start
                (VInt 30) (VInt 1000) (VStr "soon") H3 eq_refl eq_refl eq_refl)
      as (_ & _ & _ & Hconv).
    destruct (Hconv "xoxp-1" eq_refl) as (_ & _ & Hflag).
    destruct (Hflag (ValueError "invalid literal for int() with base 10: 'soon'")
                eq_refl) as [_ Hmain].
    apply (Hmain 1000 30 Sample.listing
             [Sample.picture; Sample.archive; Sample.report_docx]);
      reflexivity.
Defined.
